(** * Azure BYOK: endpoint resolution, surface selection, capability
      derivation and request sanitising

    A shallow embedding of
    - [src/extension/byok/common/azureUtils.ts]
      ([resolveAzureUrl], [shouldUseResponsesAPI]),
    - [src/extension/byok/node/azureOpenAIEndpoint.ts]
      ([AzureOpenAIEndpoint]: [isOSeriesModel], [interceptBody],
      [cloneWithTokenOverride], [makeChatRequest]),
    - [src/extension/byok/vscode-node/azureProvider.ts]
      ([AzureBYOKModelRegistry]: [supportsVision], [getModelInfo],
      [registerModel]).

    Conventions.
    - A JavaScript string is a sequence of code units; it is modelled by
      [string], one [ascii] per code unit, so the development covers the
      strings whose code units are below 256 (ASCII and Latin-1).  Every
      literal of the source is ASCII.
    - A JavaScript object used as an open record (request body, the
      [supports] flags) is a [gmap string _]; [k in o] is [is_Some (o !! k)],
      [delete o.k] is [delete k o], a spread with overrides is a chain of
      inserts.
    - [throw] is an explicit outcome ([completion]).
    - Methods of base classes that are not part of these files are
      Section variables. *)

From Stdlib Require Import String Ascii Bool Arith ZArith QArith Lia List.
From stdpp Require Import gmap strings.

Local Open Scope string_scope.

(* ===================================================================== *)
(** ** JavaScript strings *)
(* ===================================================================== *)

Module JsString.

(** [s.startsWith(p)] *)
Fixpoint startsWith (s p : string) {struct p} : bool :=
  match p with
  | EmptyString => true
  | String c p' =>
      match s with
      | EmptyString => false
      | String d s' => Ascii.eqb c d && startsWith s' p'
      end
  end.

(** [s.includes(p)]: [p] starts at some position of [s]. *)
Fixpoint includes (s p : string) : bool :=
  match s with
  | EmptyString => startsWith EmptyString p
  | String _ s' => startsWith s p || includes s' p
  end.

(** [s.slice(0, -k)] for [k > 0]: the end index is
    [max (length s - k) 0]. *)
Definition slice_to_minus (s : string) (k : nat) : string :=
  String.substring 0 (String.length s - k) s.

(** [s.endsWith(p)]: the last [length p] code units of [s] are [p]. *)
Definition endsWith (s p : string) : bool :=
  (String.length p <=? String.length s)%nat
  && String.eqb
       (String.substring (String.length s - String.length p)
          (String.length p) s) p.

(** [c.toLowerCase()] on one code unit below 256: the letters A-Z and
    the Latin-1 capitals U+00C0-U+00DE other than the multiplication sign
    U+00D7 move up by 32, everything else is its own lower case. *)
Definition lower_unit (c : ascii) : ascii :=
  let n := nat_of_ascii c in
  if ((65 <=? n) && (n <=? 90))%nat then ascii_of_nat (n + 32)
  else if ((192 <=? n) && (n <=? 222) && negb (n =? 215))%nat
       then ascii_of_nat (n + 32)
  else c.

(** [s.toLowerCase()] *)
Fixpoint toLowerCase (s : string) : string :=
  match s with
  | EmptyString => EmptyString
  | String c s' => String (lower_unit c) (toLowerCase s')
  end.

(** [list.some(p => pred(p))] *)
Definition some {A} (pred : A -> bool) (l : list A) : bool := existsb pred l.

End JsString.

Import JsString.

(* ===================================================================== *)
(** ** Values, thrown values and outcomes *)
(* ===================================================================== *)

(** The values a request parameter can hold.  Numbers are the finite
    numbers a JSON body carries; [JRef] stands for an array or an object,
    known by its identity. *)
Inductive jsvalue : Type :=
| JUndefined
| JNull
| JBool (b : bool)
| JNumber (q : Q)
| JString (s : string)
| JRef (ident : N).

(** [a === b] *)
Definition strict_equals (a b : jsvalue) : bool :=
  match a, b with
  | JUndefined, JUndefined => true
  | JNull, JNull => true
  | JBool x, JBool y => Bool.eqb x y
  | JNumber x, JNumber y => Qeq_bool x y
  | JString x, JString y => String.eqb x y
  | JRef x, JRef y => N.eqb x y
  | _, _ => false
  end.

(** What a [throw] carries.  [ThrownObject message extra] is an object:
    [message] is [Some s] when the object has a [message] property and
    [String(error.message)] is [s]; [extra] are its other own properties
    ([cause], [code], ...).  [ThrownPrimitive] is any non-object value
    ([null], a string, a number, ...). *)
Inductive thrown : Type :=
| ThrownObject (message : option string) (extra : list (string * jsvalue))
| ThrownPrimitive (v : jsvalue).

(** [new Error(message)]: an object with that message and nothing else
    (in particular no [cause]). *)
Definition new_Error (message : string) : thrown :=
  ThrownObject (Some message) [].

(** The outcome of a call that may throw. *)
Inductive completion (A : Type) : Type :=
| Return (a : A)
| Throw (e : thrown).
Arguments Return {A} a.
Arguments Throw {A} e.

(* ===================================================================== *)
(** ** azureUtils.ts *)
(* ===================================================================== *)

Module AzureUtils.

(** Truthiness of the optional parameter [useResponsesAPI?: boolean]:
    an omitted argument is [undefined], which is falsy. *)
Definition truthy (flag : option bool) : bool :=
  match flag with
  | Some b => b
  | None => false
  end.

(** Lines 12-19 of [resolveAzureUrl]: drop one trailing slash, then a
    trailing [/v1]. *)
Definition trimUrl (url : string) : string :=
  let url1 := if endsWith url "/" then slice_to_minus url 1 else url in
  if endsWith url1 "/v1" then slice_to_minus url1 3 else url1.

Definition resolveAzureUrl (modelId url : string)
    (useResponsesAPI : option bool) : completion string :=
  if includes url "/chat/completions" || includes url "/responses" then
    Return url
  else
    let url := trimUrl url in
    if includes url "models.ai.azure.com"
       || includes url "inference.ml.azure.com" then
      if truthy useResponsesAPI then
        Return (url +:+ "/v1/responses")
      else
        Return (url +:+ "/v1/chat/completions")
    else if includes url "openai.azure.com" then
      if truthy useResponsesAPI then
        Return (url +:+ "/openai/v1/responses?api-version=2025-04-01-preview")
      else
        Return (url +:+ "/openai/deployments/" +:+ modelId
                    +:+ "/chat/completions?api-version=2025-04-01-preview")
    else
      Throw (new_Error ("Unrecognized Azure deployment URL: " +:+ url)).

Definition responsesAPIModels : list string :=
  [ "o1"; "o3"; "o3-mini"; "o4-mini"; "codex-mini"; "o3-pro";
    "gpt-4.1"; "gpt-4.1-mini"; "gpt-4.1-nano"; "gpt-image-1";
    "computer-use-preview" ].

Definition shouldUseResponsesAPI (modelId : string) : bool :=
  some (fun model => includes (toLowerCase modelId) model) responsesAPIModels.

End AzureUtils.

Import AzureUtils.

(* ===================================================================== *)
(** ** Model information *)
(* ===================================================================== *)

(** [capabilities.limits]: the three window fields. *)
Record Limits : Type := mkLimits {
  max_context_window_tokens : Z;
  max_prompt_tokens : Z;
  max_output_tokens : Z
}.

(** [capabilities]: the open record of [supports] flags, the limits, and
    the properties the code never reads ([type], [family], [tokenizer]). *)
Record Capabilities : Type := mkCapabilities {
  supports : gmap string bool;
  limits : Limits;
  capabilities_rest : gmap string jsvalue
}.

(** [IChatModelInformation], as far as the code touches it: the model id,
    the capabilities, the top-level [maxInputTokens] that
    [cloneWithTokenOverride] writes, and every other property. *)
Record IChatModelInformation : Type := mkInfo {
  id : string;
  capabilities : Capabilities;
  maxInputTokens : option Z;
  info_rest : gmap string jsvalue
}.

(** The window invariant of a capability record. *)
Definition window_invariant (l : Limits) : Prop :=
  (max_prompt_tokens l + max_output_tokens l <= max_context_window_tokens l)%Z.

(* ===================================================================== *)
(** ** azureOpenAIEndpoint.ts *)
(* ===================================================================== *)

Module Endpoint.

(** The private fields of an [AzureOpenAIEndpoint]. *)
Record AzureOpenAIEndpoint : Type := mkEndpoint {
  _azureModelInfo : IChatModelInformation;
  _azureApiKey : string;
  _azureModelUrl : string
}.

(** Modelled from the spec: [this.model] is a field of the base class
    [ChatEndpoint], whose constructor is not in these files; the adapter
    snapshots the model id of the model information it is built from. *)
Definition model (this : AzureOpenAIEndpoint) : string :=
  id (_azureModelInfo this).

(** [/^(o1|o3|o4|codex-mini)/.test(modelId.toLowerCase())] *)
Definition isOSeriesModel (modelId : string) : bool :=
  some (fun alt => startsWith (toLowerCase modelId) alt)
       ["o1"; "o3"; "o4"; "codex-mini"].

(** The private, inlined copy of the surface test. *)
Definition shouldUseResponsesAPI (modelId : string) : bool :=
  isOSeriesModel modelId.

(** [k in body] *)
Definition has_property (body : gmap string jsvalue) (k : string) : bool :=
  bool_decide (is_Some (body !! k)).

(** [body.k]: a missing property reads as [undefined]. *)
Definition get_property (body : gmap string jsvalue) (k : string) : jsvalue :=
  default JUndefined (body !! k).

(** The o-series part of [interceptBody], on a body that is an object;
    the [console.info] lines only write diagnostics and are left out. *)
Definition stripOSeriesParameters (body : gmap string jsvalue)
    : gmap string jsvalue :=
  let body :=
    if has_property body "temperature" then delete "temperature" body
    else body in
  if has_property body "top_p"
     && negb (strict_equals (get_property body "top_p") JUndefined)
     && negb (strict_equals (get_property body "top_p") (JNumber 1))
  then delete "top_p" body
  else body.

Section Intercept.

(** [super.interceptBody], of [OpenAIEndpoint]: it mutates the object it
    is given. *)
Variable super_interceptBody :
  AzureOpenAIEndpoint -> gmap string jsvalue -> gmap string jsvalue.

(** [interceptBody(body)]: the body is mutated in place, so the result
    is the state of the same object after the call; [None] is
    [undefined], which has nothing to mutate. *)
Definition interceptBody (this : AzureOpenAIEndpoint)
    (body : option (gmap string jsvalue)) : option (gmap string jsvalue) :=
  match body with
  | None => None
  | Some body =>
      let body := super_interceptBody this body in
      if isOSeriesModel (model this) then Some (stripOSeriesParameters body)
      else Some body
  end.

End Intercept.

(** The endpoints that exist, by reference. *)
Abbreviation store := (gmap nat AzureOpenAIEndpoint).

(** [instantiationService.createInstance(AzureOpenAIEndpoint, info, key,
    url)]: a new object. *)
Definition createInstance (info : IChatModelInformation)
    (apiKey modelUrl : string) (h : store) : nat * store :=
  let ref := fresh (dom h) in
  (ref, <[ref := mkEndpoint info apiKey modelUrl]> h).

(** [{ ...info, maxInputTokens: n }] *)
Definition withMaxInputTokens (info : IChatModelInformation) (n : Z)
    : IChatModelInformation :=
  {| id := id info;
     capabilities := capabilities info;
     maxInputTokens := Some n;
     info_rest := info_rest info |}.

(** [this.cloneWithTokenOverride(n)], for a receiver in the store. *)
Definition cloneWithTokenOverride (this : AzureOpenAIEndpoint)
    (modelMaxPromptTokens : Z) (h : store) : nat * store :=
  let newModelInfo :=
    withMaxInputTokens (_azureModelInfo this) modelMaxPromptTokens in
  createInstance newModelInfo (_azureApiKey this) (_azureModelUrl this) h.

Section ChatRequest.

(** The arguments of a chat request, its response, and the state of the
    transport behind [super.makeChatRequest]. *)
Context {Request Response Transport : Type}.

Variable super_makeChatRequest :
  Request -> Transport -> completion Response * Transport.

Definition makeChatRequest (request : Request) (t : Transport)
    : completion Response * Transport :=
  let (outcome, t) := super_makeChatRequest request t in
  match outcome with
  | Return response => (Return response, t)
  | Throw error =>
      match error with
      | ThrownObject (Some errorMessage) _ =>
          if includes errorMessage "auth"
             || includes errorMessage "authentication" then
            (Throw (new_Error ("Azure OpenAI authentication failed: "
                               +:+ errorMessage
                               +:+ ". Please check your API key configuration.")),
             t)
          else (Throw error, t)
      | _ => (Throw error, t)
      end
  end.

End ChatRequest.

End Endpoint.

(* ===================================================================== *)
(** ** azureProvider.ts *)
(* ===================================================================== *)

Module Provider.

Import Endpoint.

(** [/^(o1|o3|o4|codex-mini)/.test(modelId.toLowerCase())] *)
Definition isOSeriesModel (modelId : string) : bool :=
  some (fun alt => startsWith (toLowerCase modelId) alt)
       ["o1"; "o3"; "o4"; "codex-mini"].

Definition supportsResponsesAPI (modelId : string) : bool :=
  AzureUtils.shouldUseResponsesAPI modelId.

Definition visionModels : list string :=
  [ "gpt-4o"; "gpt-4.1"; "gpt-image-1"; "o1"; "o3"; "o4-mini";
    "codex-mini"; "o3-pro" ].

Definition supportsVision (modelId : string) : bool :=
  some (fun model => includes (toLowerCase modelId) model) visionModels.

Definition withSupports (info : IChatModelInformation)
    (s : gmap string bool) : IChatModelInformation :=
  {| id := id info;
     capabilities :=
       {| supports := s;
          limits := limits (capabilities info);
          capabilities_rest := capabilities_rest (capabilities info) |};
     maxInputTokens := maxInputTokens info;
     info_rest := info_rest info |}.

Definition withLimits (info : IChatModelInformation) (l : Limits)
    : IChatModelInformation :=
  {| id := id info;
     capabilities :=
       {| supports := supports (capabilities info);
          limits := l;
          capabilities_rest := capabilities_rest (capabilities info) |};
     maxInputTokens := maxInputTokens info;
     info_rest := info_rest info |}.

(** The body of [getModelInfo] after [baseInfo] has been awaited. *)
Definition enhance (modelId : string) (baseInfo : IChatModelInformation)
    : IChatModelInformation :=
  if isOSeriesModel modelId then
    let baseInfo :=
      withSupports baseInfo
        (<["vision" := supportsVision modelId]>
           (<["tool_calls" := true]> (supports (capabilities baseInfo)))) in
    withLimits baseInfo
      {| max_context_window_tokens := 300000;
         max_prompt_tokens := 200000;
         max_output_tokens := 100000 |}
  else if includes (toLowerCase modelId) "gpt-4o"
          || includes (toLowerCase modelId) "gpt-4.1" then
    withSupports baseInfo
      (<["vision" := true]>
         (<["tool_calls" := true]> (supports (capabilities baseInfo))))
  else baseInfo.

(** Modelled from the spec: the model configuration type and
    [isPerModelConfig] are declared in [byokProvider], not in these
    files; a per-model descriptor is one that carries both a deployment
    URL and an API key. *)
Record BYOKModelConfig (Caps : Type) : Type := mkConfig {
  modelId : string;
  apiKey : option string;
  deploymentUrl : option string;
  config_capabilities : option Caps
}.
Arguments mkConfig {Caps}.
Arguments modelId {Caps}.
Arguments apiKey {Caps}.
Arguments deploymentUrl {Caps}.
Arguments config_capabilities {Caps}.

Definition isPerModelConfig {Caps} (config : BYOKModelConfig Caps)
    : option (string * string) :=
  match apiKey config, deploymentUrl config with
  | Some key, Some url => Some (key, url)
  | _, _ => None
  end.

(** What [registerModel] hands to the language-model registry: the
    provider name and the endpoint behind it. *)
Record Registration : Type := mkRegistration {
  providerName : string;
  endpoint : nat
}.

Section Registry.

(** [BYOKModelCapabilities] and [super.getModelInfo], of
    [BaseOpenAICompatibleBYOKRegistry]. *)
Context {Caps : Type}.
Variable super_getModelInfo :
  string -> string -> option Caps -> IChatModelInformation.

Definition getModelInfo (modelId apiKey : string)
    (modelCapabilities : option Caps) : IChatModelInformation :=
  let baseInfo := super_getModelInfo modelId apiKey modelCapabilities in
  enhance modelId baseInfo.

(** [this.name], set to ['Azure'] by the constructor. *)
Definition name : string := "Azure".

Definition registerModel (config : BYOKModelConfig Caps) (h : store)
    : completion Registration * store :=
  match isPerModelConfig config with
  | None =>
      (Throw (new_Error
                "Azure BYOK models require both deployment URL and API key"),
       h)
  | Some (key, url) =>
      let modelInfo :=
        getModelInfo (modelId config) key (config_capabilities config) in
      let useResponsesAPI := supportsResponsesAPI (modelId config) in
      match resolveAzureUrl (modelId config) url (Some useResponsesAPI) with
      | Throw e => (Throw e, h)
      | Return modelUrl =>
          let (azureOpenAIEndpoint, h) :=
            createInstance modelInfo key modelUrl h in
          (Return {| providerName := name +:+ "-" +:+ modelId config;
                     endpoint := azureOpenAIEndpoint |},
           h)
      end
  end.

End Registry.

End Provider.

(* ===================================================================== *)
(** ** Notions used to state the properties *)
(* ===================================================================== *)

(** The last code unit of a string. *)
Fixpoint lastUnit (s : string) : option ascii :=
  match s with
  | EmptyString => None
  | String c EmptyString => Some c
  | String _ s' => lastUnit s'
  end.

(** The two tests of [resolveAzureUrl] on the trimmed URL. *)
Definition hasRawInferenceMarker (url : string) : bool :=
  includes url "models.ai.azure.com" || includes url "inference.ml.azure.com".

Definition hasGatewayMarker (url : string) : bool :=
  includes url "openai.azure.com".

(** The test that lets an already resolved URL through. *)
Definition hasRequestPath (url : string) : bool :=
  includes url "/chat/completions" || includes url "/responses".

Module UrlHost.

(** What follows the first [://] of a URL, if there is one. *)
Fixpoint afterScheme (s : string) : option string :=
  match s with
  | EmptyString => None
  | String _ s' =>
      if startsWith s "://" then Some (String.substring 3 (String.length s) s)
      else afterScheme s'
  end.

(** The part of a string before its first [/], [?] or [#]. *)
Fixpoint untilDelimiter (s : string) : string :=
  match s with
  | EmptyString => EmptyString
  | String c s' =>
      if Ascii.eqb c "/" || Ascii.eqb c "?" || Ascii.eqb c "#"
      then EmptyString
      else String c (untilDelimiter s')
  end.

(** The host of a URL in the sense of the specification's wording "the
    host contains a marker": the authority that follows the scheme.  The
    source has no such function; [spec_host] exists only to compare that
    wording with the whole-string test of [resolveAzureUrl]. *)
Definition spec_host (url : string) : string :=
  untilDelimiter (match afterScheme url with
                  | Some rest => rest
                  | None => url
                  end).

End UrlHost.

(** Whether the third condition of [interceptBody] deletes a [top_p] of
    value [v]. *)
Definition top_p_rejected (v : jsvalue) : bool :=
  negb (strict_equals v JUndefined) && negb (strict_equals v (JNumber 1)).

(** An endpoint for [modelId], with placeholder key and URL. *)
Definition sample_endpoint (modelId : string) : Endpoint.AzureOpenAIEndpoint :=
  Endpoint.mkEndpoint
    (mkInfo modelId (mkCapabilities ∅ (mkLimits 0 0 0) ∅) None ∅)
    "key" "https://test.openai.azure.com/openai/v1/responses".

(** The message of the re-wrapped authentication failure. *)
Definition authenticationFailed (errorMessage : string) : string :=
  "Azure OpenAI authentication failed: " +:+ errorMessage
  +:+ ". Please check your API key configuration.".

(** A transport that counts its invocations and always rejects with the
    given value. *)
Definition rejectingTransport (error : thrown) (request : unit) (calls : nat)
    : completion unit * nat :=
  (Throw error, S calls).

(** The limits [getModelInfo] gives every o-series model. *)
Definition oSeriesLimits : Limits :=
  {| max_context_window_tokens := 300000;
     max_prompt_tokens := 200000;
     max_output_tokens := 100000 |}.

(** A baseline as the base registry could return it for [modelId]. *)
Definition sample_baseline (modelId : string) (l : Limits)
    : IChatModelInformation :=
  mkInfo modelId
    (mkCapabilities (<["streaming" := true]> (<["vision" := false]> ∅)) l ∅)
    None ∅.

(** The suffixes [trimUrl] can remove. *)
Definition trimmedSuffixes : list string := [""; "/"; "/v1"; "/v1/"].

(** The test of the gpt-4o / gpt-4.1 branch of [getModelInfo]. *)
Definition hasOmniMarker (modelId : string) : bool :=
  includes (toLowerCase modelId) "gpt-4o"
  || includes (toLowerCase modelId) "gpt-4.1".

(* ===================================================================== *)
(** ** Facts about the string primitives *)
(* ===================================================================== *)

Module StringFacts.

Local Arguments String.append : simpl nomatch.

Lemma app_empty_r s : s +:+ "" = s.
Proof. induction s as [|c s IH]; simpl; [reflexivity | now rewrite IH]. Qed.

Lemma app_assoc a b c : (a +:+ b) +:+ c = a +:+ b +:+ c.
Proof. induction a as [|x a IH]; simpl; [reflexivity | now rewrite IH]. Qed.

Lemma length_app a b :
  String.length (a +:+ b) = (String.length a + String.length b)%nat.
Proof. induction a as [|x a IH]; simpl; [reflexivity | now rewrite IH]. Qed.

(** *** [startsWith] and [includes] *)

Lemma startsWith_app p c : startsWith (p +:+ c) p = true.
Proof.
  induction p as [|x p IH]; simpl; [reflexivity |].
  now rewrite Ascii.eqb_refl, IH.
Qed.

Lemma startsWith_inv s p : startsWith s p = true -> exists c, s = p +:+ c.
Proof.
  revert s; induction p as [|x p IH]; intros s H; simpl in *.
  - now exists s.
  - destruct s as [|y s]; [discriminate |].
    apply andb_true_iff in H as [Hxy Hrest].
    apply Ascii.eqb_eq in Hxy; subst y.
    destruct (IH _ Hrest) as [c ->]. now exists c.
Qed.

Lemma startsWith_includes s p : startsWith s p = true -> includes s p = true.
Proof. destruct s; simpl; intros ->; reflexivity. Qed.

Lemma includes_app a p c : includes (a +:+ p +:+ c) p = true.
Proof.
  induction a as [|x a IH]; simpl.
  - apply startsWith_includes, startsWith_app.
  - rewrite IH. apply orb_true_r.
Qed.

Lemma includes_inv s p :
  includes s p = true -> exists a c, s = a +:+ p +:+ c.
Proof.
  induction s as [|x s IH]; simpl; intros H.
  - apply startsWith_inv in H as [c Hc]. now exists "", c.
  - apply orb_true_iff in H as [H | H].
    + apply startsWith_inv in H as [c Hc]. now exists "", c.
    + destruct (IH H) as (a & c & ->). now exists (String x a), c.
Qed.

(** [includes] is the substring test. *)
Lemma includes_spec s p :
  includes s p = true <-> exists a c, s = a +:+ p +:+ c.
Proof.
  split; [apply includes_inv |].
  intros (a & c & ->). apply includes_app.
Qed.

Lemma lastUnit_snoc a c : lastUnit (a +:+ String c "") = Some c.
Proof.
  induction a as [|x a IH]; simpl; [reflexivity |].
  destruct (a +:+ String c "") eqn:E; [| exact IH].
  destruct a; discriminate.
Qed.

Lemma startsWith_snoc s c p :
  startsWith (s +:+ String c "") p = true ->
  startsWith s p = true \/ p = s +:+ String c "".
Proof.
  revert p; induction s as [|e s IH]; intros p H.
  - destruct p as [|d p]; [now left |]. simpl in H.
    apply andb_true_iff in H as [Hd Hp]. apply Ascii.eqb_eq in Hd; subst d.
    destruct p; [now right | discriminate].
  - destruct p as [|d p]; [now left |]. simpl in H.
    apply andb_true_iff in H as [Hd Hp]. apply Ascii.eqb_eq in Hd; subst d.
    destruct (IH _ Hp) as [Hs | ->].
    + left. simpl. now rewrite Ascii.eqb_refl, Hs.
    + now right.
Qed.

(** Appending one code unit creates an occurrence of [p] only when [p]
    ends with that unit. *)
Lemma includes_snoc s c p :
  includes (s +:+ String c "") p = true ->
  includes s p = true \/ lastUnit p = Some c.
Proof.
  induction s as [|e s IH]; intros H.
  - change ("" +:+ String c "") with (String c "") in H. simpl in H.
    apply orb_true_iff in H as [H | H]; [| now left].
    apply (startsWith_snoc "" c p) in H as [H | ->]; [now left | now right].
  - simpl in H. apply orb_true_iff in H as [H | H].
    + apply (startsWith_snoc (String e s) c p) in H as [H | ->].
      * left. simpl. now rewrite H.
      * right. apply (lastUnit_snoc (String e s)).
    + destruct (IH H) as [Hs | Hl]; [| now right].
      left. simpl. rewrite Hs. apply orb_true_r.
Qed.

Lemma includes_snoc_false s c p x :
  includes s p = false -> lastUnit p = Some x -> x <> c ->
  includes (s +:+ String c "") p = false.
Proof.
  intros Hs Hl Hx.
  destruct (includes (s +:+ String c "") p) eqn:E; [| reflexivity].
  apply includes_snoc in E as [E | E]; congruence.
Qed.

(** *** [substring], [endsWith] and [slice] *)

Lemma substring_all p : String.substring 0 (String.length p) p = p.
Proof. induction p as [|x p IH]; simpl; [reflexivity | now rewrite IH]. Qed.

Lemma substring_prefix a b :
  String.substring 0 (String.length a) (a +:+ b) = a.
Proof.
  induction a as [|x a IH]; simpl; [now destruct b | now rewrite IH].
Qed.

Lemma substring_skip a b n m :
  String.substring (String.length a + n) m (a +:+ b) = String.substring n m b.
Proof. induction a as [|x a IH]; simpl; [reflexivity | exact IH]. Qed.

Lemma substring_split s k :
  (k <= String.length s)%nat ->
  String.substring 0 k s +:+ String.substring k (String.length s - k) s = s.
Proof.
  revert k; induction s as [|x s IH]; intros [|k] Hk; simpl in *;
    try reflexivity; try lia.
  - now rewrite substring_all.
  - rewrite IH by lia. reflexivity.
Qed.

Lemma endsWith_app a p : endsWith (a +:+ p) p = true.
Proof.
  unfold endsWith. rewrite length_app.
  replace (String.length a + String.length p - String.length p)%nat
    with (String.length a + 0)%nat by lia.
  rewrite substring_skip, substring_all, String.eqb_refl.
  apply andb_true_iff; split; [apply Nat.leb_le; lia | reflexivity].
Qed.

Lemma slice_app a p : slice_to_minus (a +:+ p) (String.length p) = a.
Proof.
  unfold slice_to_minus. rewrite length_app.
  replace (String.length a + String.length p - String.length p)%nat
    with (String.length a) by lia.
  apply substring_prefix.
Qed.

Lemma endsWith_inv s p :
  endsWith s p = true -> s = slice_to_minus s (String.length p) +:+ p.
Proof.
  unfold endsWith, slice_to_minus. intros H.
  apply andb_true_iff in H as [Hlen Heq].
  apply Nat.leb_le in Hlen. apply String.eqb_eq in Heq.
  rewrite <- (substring_split s (String.length s - String.length p)) at 1
    by lia.
  replace (String.length s - (String.length s - String.length p))%nat
    with (String.length p) by lia.
  now rewrite Heq.
Qed.

(** [endsWith] is the suffix test. *)
Lemma endsWith_spec s p : endsWith s p = true <-> exists a, s = a +:+ p.
Proof.
  split.
  - intros H. eexists. apply endsWith_inv, H.
  - intros [a ->]. apply endsWith_app.
Qed.

Lemma endsWith_false s p : endsWith s p = false -> forall a, s <> a +:+ p.
Proof. intros H a ->. now rewrite endsWith_app in H. Qed.

(** A suffix test only looks at the end of the string. *)
Lemma endsWith_app_r a b q :
  (String.length q <= String.length b)%nat ->
  endsWith (a +:+ b) q = endsWith b q.
Proof.
  intros Hq. unfold endsWith. rewrite length_app.
  replace (String.length a + String.length b - String.length q)%nat
    with (String.length a + (String.length b - String.length q))%nat by lia.
  rewrite substring_skip. f_equal.
  apply Nat.leb_le in Hq as Hq'. rewrite Hq'. apply Nat.leb_le. lia.
Qed.

End StringFacts.

Import StringFacts.

Example resolve_test_1 :
  resolveAzureUrl "gpt-4" "https://test.openai.azure.com" None
  = Return "https://test.openai.azure.com/openai/deployments/gpt-4/chat/completions?api-version=2025-04-01-preview".
Proof. reflexivity. Qed.

Example resolve_test_2 :
  resolveAzureUrl "o1-preview" "https://test.openai.azure.com" (Some true)
  = Return "https://test.openai.azure.com/openai/v1/responses?api-version=2025-04-01-preview".
Proof. reflexivity. Qed.

Example resolve_test_3 :
  resolveAzureUrl "gpt-4o" "https://test.models.ai.azure.com/v1/" None
  = Return "https://test.models.ai.azure.com/v1/chat/completions".
Proof. reflexivity. Qed.

Example resolve_test_4 :
  resolveAzureUrl "gpt-4" "https://unknown-endpoint.com" None
  = Throw (new_Error "Unrecognized Azure deployment URL: https://unknown-endpoint.com").
Proof. reflexivity. Qed.

Example should_test :
  map shouldUseResponsesAPI ["o1-preview"; "O3-MINI"; "GPT-4.1"; "gpt-4o"; "o4"]
  = [true; true; true; false; false].
Proof. reflexivity. Qed.

Example spec_host_example :
  UrlHost.spec_host "https://test.openai.azure.com/openai/v1?x=1"
  = "test.openai.azure.com".
Proof. reflexivity. Qed.

(* ===================================================================== *)
(** ** URL Normalizer: [resolveAzureUrl] *)
(* ===================================================================== *)

Module ResolveFacts.

(** Past the idempotence guard the function only looks at [trimUrl]. *)
Lemma resolveAzureUrl_unguarded modelId u f :
  hasRequestPath u = false ->
  resolveAzureUrl modelId u f =
    let b := trimUrl u in
    if hasRawInferenceMarker b then
      if truthy f then Return (b +:+ "/v1/responses")
      else Return (b +:+ "/v1/chat/completions")
    else if hasGatewayMarker b then
      if truthy f then
        Return (b +:+ "/openai/v1/responses?api-version=2025-04-01-preview")
      else
        Return (b +:+ "/openai/deployments/" +:+ modelId
                  +:+ "/chat/completions?api-version=2025-04-01-preview")
    else Throw (new_Error ("Unrecognized Azure deployment URL: " +:+ b)).
Proof.
  unfold hasRequestPath, resolveAzureUrl. intros ->. reflexivity.
Qed.

Lemma resolveAzureUrl_guarded modelId u f :
  hasRequestPath u = true -> resolveAzureUrl modelId u f = Return u.
Proof. unfold hasRequestPath, resolveAzureUrl. intros ->. reflexivity. Qed.

(** The two stripping steps, read off [trimUrl]. *)
Lemma trimUrl_steps u :
  exists u1,
    (u = u1 +:+ "/" \/ endsWith u "/" = false /\ u1 = u) /\
    (u1 = trimUrl u +:+ "/v1" \/ endsWith u1 "/v1" = false /\ trimUrl u = u1).
Proof.
  unfold trimUrl.
  destruct (endsWith u "/") eqn:E1.
  - exists (slice_to_minus u 1). split.
    + left. exact (endsWith_inv u "/" E1).
    + destruct (endsWith (slice_to_minus u 1) "/v1") eqn:E2.
      * left. exact (endsWith_inv _ "/v1" E2).
      * right. now split.
  - exists u. split; [right; now split |].
    destruct (endsWith u "/v1") eqn:E2.
    + left. exact (endsWith_inv _ "/v1" E2).
    + right. now split.
Qed.

Lemma trimUrl_canonical u :
  endsWith u "/" = false -> endsWith u "/v1" = false -> trimUrl u = u.
Proof. unfold trimUrl. intros -> ->. reflexivity. Qed.

Lemma trimUrl_slash u : endsWith u "/v1" = false -> trimUrl (u +:+ "/") = u.
Proof.
  intros H. unfold trimUrl.
  pose proof (slice_app u "/") as Hs.
  change (String.length "/") with 1%nat in Hs.
  rewrite (endsWith_app u "/"), Hs, H. reflexivity.
Qed.

Lemma trimUrl_v1 u : trimUrl (u +:+ "/v1") = u.
Proof.
  unfold trimUrl.
  rewrite (endsWith_app_r u "/v1" "/") by (simpl; lia).
  change (endsWith "/v1" "/") with false. cbv iota.
  rewrite (endsWith_app u "/v1"). exact (slice_app u "/v1").
Qed.

(** Neither suffix can complete a request-path marker: both markers end
    with the letter s. *)
Lemma hasRequestPath_snoc u c :
  hasRequestPath u = false -> c <> "s"%char ->
  hasRequestPath (u +:+ String c "") = false.
Proof.
  unfold hasRequestPath. intros H Hc.
  apply orb_false_iff in H as [H1 H2]. apply orb_false_iff. split.
  - apply (includes_snoc_false u c _ "s"%char); auto.
  - apply (includes_snoc_false u c _ "s"%char); auto.
Qed.

Lemma hasRequestPath_slash u :
  hasRequestPath u = false -> hasRequestPath (u +:+ "/") = false.
Proof. intros H. apply hasRequestPath_snoc; [exact H | discriminate]. Qed.

Lemma hasRequestPath_v1 u :
  hasRequestPath u = false -> hasRequestPath (u +:+ "/v1") = false.
Proof.
  intros H.
  replace (u +:+ "/v1") with (((u +:+ "/") +:+ "v") +:+ "1")
    by (now rewrite !app_assoc).
  repeat (apply hasRequestPath_snoc; [| discriminate]). exact H.
Qed.

Lemma hasRequestPath_false u :
  includes u "/chat/completions" = false -> includes u "/responses" = false ->
  hasRequestPath u = false.
Proof. unfold hasRequestPath. intros -> ->. reflexivity. Qed.

End ResolveFacts.

Import ResolveFacts.

(** C1, as amended.  For every model id, surface flag and raw URL [u]
    without a request-path marker, [resolveAzureUrl] works on the base [b]
    obtained from [u] by dropping one trailing slash and then a trailing
    [/v1], and returns [b/v1/responses] or [b/v1/chat/completions] when [b]
    contains a raw-inference marker, and otherwise, when [b] contains the
    gateway marker, [b/openai/v1/responses?api-version=...] or
    [b/openai/deployments/<modelId>/chat/completions?api-version=...],
    according to the flag.  When [u] itself ends with neither a slash nor
    [/v1], the inputs [u], [u/] and [u/v1] resolve to the same result. *)
Theorem resolveAzureUrl_canonical_base (modelId u : string) (f : option bool) :
  includes u "/chat/completions" = false ->
  includes u "/responses" = false ->
  exists u1 b,
    (u = u1 +:+ "/" \/ endsWith u "/" = false /\ u1 = u) /\
    (u1 = b +:+ "/v1" \/ endsWith u1 "/v1" = false /\ b = u1) /\
    (hasRawInferenceMarker b = true -> truthy f = true ->
       resolveAzureUrl modelId u f = Return (b +:+ "/v1/responses")) /\
    (hasRawInferenceMarker b = true -> truthy f = false ->
       resolveAzureUrl modelId u f = Return (b +:+ "/v1/chat/completions")) /\
    (hasRawInferenceMarker b = false -> includes b "openai.azure.com" = true ->
       truthy f = true ->
       resolveAzureUrl modelId u f =
         Return (b +:+ "/openai/v1/responses?api-version=2025-04-01-preview")) /\
    (hasRawInferenceMarker b = false -> includes b "openai.azure.com" = true ->
       truthy f = false ->
       resolveAzureUrl modelId u f =
         Return (b +:+ "/openai/deployments/" +:+ modelId
                   +:+ "/chat/completions?api-version=2025-04-01-preview")) /\
    (endsWith u "/" = false -> endsWith u "/v1" = false ->
       resolveAzureUrl modelId (u +:+ "/") f = resolveAzureUrl modelId u f /\
       resolveAzureUrl modelId (u +:+ "/v1") f = resolveAzureUrl modelId u f).
Proof.
  intros Hcc Hresp.
  pose proof (hasRequestPath_false u Hcc Hresp) as Hpath.
  destruct (trimUrl_steps u) as (u1 & Hslash & Hv1).
  exists u1, (trimUrl u).
  rewrite (resolveAzureUrl_unguarded modelId u f Hpath). cbv zeta.
  unfold hasGatewayMarker.
  repeat split; try assumption.
  - intros -> ->. reflexivity.
  - intros -> ->. reflexivity.
  - intros -> -> ->. reflexivity.
  - intros -> -> ->. reflexivity.
  - rewrite (resolveAzureUrl_unguarded modelId (u +:+ "/") f)
      by now apply hasRequestPath_slash.
    cbv zeta. rewrite (trimUrl_slash u), (trimUrl_canonical u) by assumption.
    reflexivity.
  - rewrite (resolveAzureUrl_unguarded modelId (u +:+ "/v1") f)
      by now apply hasRequestPath_v1.
    cbv zeta. rewrite (trimUrl_v1 u), (trimUrl_canonical u) by assumption.
    reflexivity.
Qed.

Lemma resolveAzureUrl_canonical_base_witness :
  exists u1 b,
    ("https://test.openai.azure.com" = u1 +:+ "/"
     \/ endsWith "https://test.openai.azure.com" "/" = false
        /\ u1 = "https://test.openai.azure.com") /\
    (u1 = b +:+ "/v1" \/ endsWith u1 "/v1" = false /\ b = u1) /\
    (hasRawInferenceMarker b = true -> truthy (Some true) = true ->
       resolveAzureUrl "o1-preview" "https://test.openai.azure.com" (Some true)
       = Return (b +:+ "/v1/responses")) /\
    (hasRawInferenceMarker b = true -> truthy (Some true) = false ->
       resolveAzureUrl "o1-preview" "https://test.openai.azure.com" (Some true)
       = Return (b +:+ "/v1/chat/completions")) /\
    (hasRawInferenceMarker b = false -> includes b "openai.azure.com" = true ->
       truthy (Some true) = true ->
       resolveAzureUrl "o1-preview" "https://test.openai.azure.com" (Some true) =
         Return (b +:+ "/openai/v1/responses?api-version=2025-04-01-preview")) /\
    (hasRawInferenceMarker b = false -> includes b "openai.azure.com" = true ->
       truthy (Some true) = false ->
       resolveAzureUrl "o1-preview" "https://test.openai.azure.com" (Some true) =
         Return (b +:+ "/openai/deployments/" +:+ "o1-preview"
                   +:+ "/chat/completions?api-version=2025-04-01-preview")) /\
    (endsWith "https://test.openai.azure.com" "/" = false ->
     endsWith "https://test.openai.azure.com" "/v1" = false ->
       resolveAzureUrl "o1-preview" ("https://test.openai.azure.com" +:+ "/") (Some true)
       = resolveAzureUrl "o1-preview" "https://test.openai.azure.com" (Some true) /\
       resolveAzureUrl "o1-preview" ("https://test.openai.azure.com" +:+ "/v1") (Some true)
       = resolveAzureUrl "o1-preview" "https://test.openai.azure.com" (Some true)).
Proof.
  apply (resolveAzureUrl_canonical_base "o1-preview"
           "https://test.openai.azure.com" (Some true)); reflexivity.
Defined.

(** C1, as stated, fails in two places.  (a) The raw URL
    [https://x.openai.azure.com/] has no request-path marker, yet it and
    the same URL with one more slash, or with [/v1] appended, resolve to
    three different results: only one trailing slash is removed.  (b) The
    base [https://x.models.ai.azure.com/proxy/y.openai.azure.com] contains
    the gateway marker and the flag is set, yet the result is not the
    gateway URL: the raw-inference test comes first. *)
Lemma resolveAzureUrl_canonical_base_counterexample :
  (includes "https://x.openai.azure.com/" "/chat/completions" = false /\
   includes "https://x.openai.azure.com/" "/responses" = false /\
   resolveAzureUrl "gpt-4" "https://x.openai.azure.com/" None
   = Return "https://x.openai.azure.com/openai/deployments/gpt-4/chat/completions?api-version=2025-04-01-preview" /\
   resolveAzureUrl "gpt-4" ("https://x.openai.azure.com/" +:+ "/") None
   = Return "https://x.openai.azure.com//openai/deployments/gpt-4/chat/completions?api-version=2025-04-01-preview" /\
   resolveAzureUrl "gpt-4" ("https://x.openai.azure.com/" +:+ "/v1") None
   = Return "https://x.openai.azure.com//openai/deployments/gpt-4/chat/completions?api-version=2025-04-01-preview" /\
   resolveAzureUrl "gpt-4" ("https://x.openai.azure.com/" +:+ "/") None
   <> resolveAzureUrl "gpt-4" "https://x.openai.azure.com/" None) /\
  (includes "https://x.models.ai.azure.com/proxy/y.openai.azure.com"
     "/chat/completions" = false /\
   includes "https://x.models.ai.azure.com/proxy/y.openai.azure.com"
     "/responses" = false /\
   trimUrl "https://x.models.ai.azure.com/proxy/y.openai.azure.com"
   = "https://x.models.ai.azure.com/proxy/y.openai.azure.com" /\
   includes "https://x.models.ai.azure.com/proxy/y.openai.azure.com"
     "openai.azure.com" = true /\
   resolveAzureUrl "o3" "https://x.models.ai.azure.com/proxy/y.openai.azure.com"
     (Some true)
   = Return "https://x.models.ai.azure.com/proxy/y.openai.azure.com/v1/responses" /\
   resolveAzureUrl "o3" "https://x.models.ai.azure.com/proxy/y.openai.azure.com"
     (Some true)
   <> Return ("https://x.models.ai.azure.com/proxy/y.openai.azure.com"
              +:+ "/openai/v1/responses?api-version=2025-04-01-preview")).
Proof. repeat split; try reflexivity; vm_compute; discriminate. Qed.

(** C2.  [resolveAzureUrl] is idempotent: whenever it returns a URL,
    resolving that URL again (same model id, same flag) returns it
    unchanged; and a URL that already contains [/chat/completions] or
    [/responses] is returned unchanged for every model id and flag. *)
Theorem resolveAzureUrl_idempotent (modelId u r : string) (f : option bool) :
  resolveAzureUrl modelId u f = Return r ->
  resolveAzureUrl modelId r f = resolveAzureUrl modelId u f /\
  (forall u', includes u' "/chat/completions" = true
              \/ includes u' "/responses" = true ->
     forall m' f', resolveAzureUrl m' u' f' = Return u').
Proof.
  intros Hr. split.
  - rewrite Hr. apply resolveAzureUrl_guarded.
    destruct (hasRequestPath u) eqn:Hpath.
    + rewrite (resolveAzureUrl_guarded _ _ _ Hpath) in Hr.
      now injection Hr as <-.
    + rewrite (resolveAzureUrl_unguarded _ _ _ Hpath) in Hr. cbv zeta in Hr.
      unfold hasRequestPath.
      destruct (hasRawInferenceMarker (trimUrl u));
        [| destruct (hasGatewayMarker (trimUrl u)); [| discriminate]];
        destruct (truthy f); injection Hr as <-.
      * replace (trimUrl u +:+ "/v1/responses")
          with (trimUrl u +:+ "/v1" +:+ "/responses" +:+ "") by reflexivity.
        rewrite <- (app_assoc (trimUrl u) "/v1"), includes_app.
        apply orb_true_r.
      * replace (trimUrl u +:+ "/v1/chat/completions")
          with (trimUrl u +:+ "/v1" +:+ "/chat/completions" +:+ "")
          by reflexivity.
        rewrite <- (app_assoc (trimUrl u) "/v1"), includes_app. reflexivity.
      * replace (trimUrl u +:+ "/openai/v1/responses?api-version=2025-04-01-preview")
          with (trimUrl u +:+ "/openai/v1" +:+ "/responses"
                  +:+ "?api-version=2025-04-01-preview") by reflexivity.
        rewrite <- (app_assoc (trimUrl u) "/openai/v1"), includes_app.
        apply orb_true_r.
      * replace (trimUrl u +:+ "/openai/deployments/" +:+ modelId
                   +:+ "/chat/completions?api-version=2025-04-01-preview")
          with (((trimUrl u +:+ "/openai/deployments/") +:+ modelId)
                  +:+ "/chat/completions"
                  +:+ "?api-version=2025-04-01-preview")
          by (now rewrite !app_assoc).
        rewrite includes_app. reflexivity.
  - intros u' Hu' m' f'. apply resolveAzureUrl_guarded.
    unfold hasRequestPath. destruct Hu' as [-> | ->];
      [reflexivity | apply orb_true_r].
Qed.

Lemma resolveAzureUrl_idempotent_witness :
  resolveAzureUrl "gpt-4"
    "https://test.openai.azure.com/openai/deployments/gpt-4/chat/completions?api-version=2025-04-01-preview"
    None
  = resolveAzureUrl "gpt-4" "https://test.openai.azure.com/" None /\
  (forall u', includes u' "/chat/completions" = true
              \/ includes u' "/responses" = true ->
     forall m' f', resolveAzureUrl m' u' f' = Return u').
Proof.
  apply (resolveAzureUrl_idempotent "gpt-4" "https://test.openai.azure.com/"
           "https://test.openai.azure.com/openai/deployments/gpt-4/chat/completions?api-version=2025-04-01-preview"
           None).
  reflexivity.
Defined.

(** C6, as amended.  [resolveAzureUrl] throws exactly when the URL has no
    request-path marker and the trimmed URL, as a whole string, contains
    none of the three markers; what it throws is then an [Error] whose
    message is [Unrecognized Azure deployment URL: ] followed by the trimmed
    URL, so the message includes that URL.  There is no other failure. *)
Theorem resolveAzureUrl_failure (modelId u : string) (f : option bool)
    (e : thrown) :
  (resolveAzureUrl modelId u f = Throw e <->
     includes u "/chat/completions" = false /\
     includes u "/responses" = false /\
     includes (trimUrl u) "models.ai.azure.com" = false /\
     includes (trimUrl u) "inference.ml.azure.com" = false /\
     includes (trimUrl u) "openai.azure.com" = false /\
     e = new_Error ("Unrecognized Azure deployment URL: " +:+ trimUrl u)) /\
  includes ("Unrecognized Azure deployment URL: " +:+ trimUrl u) (trimUrl u)
  = true.
Proof.
  split.
  - unfold resolveAzureUrl. split.
    + destruct (includes u "/chat/completions"); [discriminate |].
      destruct (includes u "/responses"); [discriminate |]. cbn [orb].
      destruct (includes (trimUrl u) "models.ai.azure.com");
        [cbn [orb]; destruct (truthy f); discriminate |].
      destruct (includes (trimUrl u) "inference.ml.azure.com");
        [cbn [orb]; destruct (truthy f); discriminate |]. cbn [orb].
      destruct (includes (trimUrl u) "openai.azure.com");
        [destruct (truthy f); discriminate |].
      intros H. injection H as <-. repeat split; reflexivity.
    + intros (-> & -> & -> & -> & -> & ->). reflexivity.
  - pose proof (includes_app "Unrecognized Azure deployment URL: "
                  (trimUrl u) "") as H.
    now rewrite app_empty_r in H.
Qed.

(** C6, as stated, speaks of the host.  The host of
    [https://example.com/openai.azure.com] is [example.com], which contains
    none of the markers, and the URL has no request-path marker; yet
    [resolveAzureUrl] does not fail on it, because it searches the whole
    string. *)
Lemma resolveAzureUrl_failure_counterexample :
  includes "https://example.com/openai.azure.com" "/chat/completions" = false /\
  includes "https://example.com/openai.azure.com" "/responses" = false /\
  UrlHost.spec_host (trimUrl "https://example.com/openai.azure.com")
  = "example.com" /\
  includes "example.com" "models.ai.azure.com" = false /\
  includes "example.com" "inference.ml.azure.com" = false /\
  includes "example.com" "openai.azure.com" = false /\
  resolveAzureUrl "gpt-4" "https://example.com/openai.azure.com" None
  = Return "https://example.com/openai.azure.com/openai/deployments/gpt-4/chat/completions?api-version=2025-04-01-preview".
Proof. repeat split; reflexivity. Qed.

(* ===================================================================== *)
(** ** Surface Selector: [shouldUseResponsesAPI] *)
(* ===================================================================== *)

Module SurfaceFacts.

Lemma includes_refl t : includes t t = true.
Proof.
  pose proof (includes_app "" t "") as H.
  change ("" +:+ t +:+ "") with (t +:+ "") in H.
  now rewrite app_empty_r in H.
Qed.

Lemma some_true_iff {A} (pred : A -> bool) l :
  some pred l = true <-> exists x, In x l /\ pred x = true.
Proof. unfold some. apply existsb_exists. Qed.

Lemma some_false_iff {A} (pred : A -> bool) l :
  some pred l = false <-> forall x, In x l -> pred x = false.
Proof.
  unfold some. split.
  - intros H x Hx. destruct (pred x) eqn:E; [| reflexivity].
    rewrite <- H. symmetry. apply existsb_exists. eauto.
  - intros H. destruct (existsb pred l) eqn:E; [| reflexivity].
    apply existsb_exists in E as (x & Hx & Hp). rewrite (H x Hx) in Hp.
    discriminate.
Qed.

End SurfaceFacts.

Import SurfaceFacts.

(** C3.  [shouldUseResponsesAPI] is a total function to [bool].  Its token
    list is the six reasoning-family tokens followed by the five
    advanced-family tokens.  It returns [true] for every string whose lower
    case is one of the tokens (each token under any letter casing), and in
    general exactly when the lower-cased id contains a token; for every
    other id, recognised or not, it returns [false], in particular for
    [gpt-4], [gpt-4o], [gpt-3.5-turbo] and [text-davinci-003]. *)
Theorem shouldUseResponsesAPI_tokens :
  responsesAPIModels
  = ([ "o1"; "o3"; "o3-mini"; "o4-mini"; "codex-mini"; "o3-pro" ]
     ++ [ "gpt-4.1"; "gpt-4.1-mini"; "gpt-4.1-nano"; "gpt-image-1";
          "computer-use-preview" ])%list /\
  (forall token modelId,
     In token responsesAPIModels -> toLowerCase modelId = token ->
     AzureUtils.shouldUseResponsesAPI modelId = true) /\
  (forall modelId,
     AzureUtils.shouldUseResponsesAPI modelId = true <->
     exists token, In token responsesAPIModels
                   /\ includes (toLowerCase modelId) token = true) /\
  (forall modelId,
     (forall token, In token responsesAPIModels ->
                    includes (toLowerCase modelId) token = false) ->
     AzureUtils.shouldUseResponsesAPI modelId = false) /\
  map AzureUtils.shouldUseResponsesAPI responsesAPIModels
  = [true; true; true; true; true; true; true; true; true; true; true] /\
  map AzureUtils.shouldUseResponsesAPI ["O1"; "O3-MINI"; "GPT-4.1"; "Codex-Mini"]
  = [true; true; true; true] /\
  map AzureUtils.shouldUseResponsesAPI ["gpt-4"; "gpt-4o"; "gpt-3.5-turbo"; "text-davinci-003"]
  = [false; false; false; false].
Proof.
  split; [reflexivity |]. split; [| split; [| split]].
  - intros token modelId Hin Hlow. unfold AzureUtils.shouldUseResponsesAPI.
    apply some_true_iff. exists token. split; [exact Hin |].
    rewrite Hlow. apply includes_refl.
  - intros modelId. unfold AzureUtils.shouldUseResponsesAPI. apply some_true_iff.
  - intros modelId H. unfold AzureUtils.shouldUseResponsesAPI.
    apply some_false_iff. exact H.
  - repeat split; reflexivity.
Qed.

(* ===================================================================== *)
(** ** Body Sanitizer: [interceptBody] *)
(* ===================================================================== *)

Module SanitizeFacts.

Import Endpoint.

Lemma has_property_lookup (body : gmap string jsvalue) k :
  has_property body k = match body !! k with Some _ => true | None => false end.
Proof.
  unfold has_property. destruct (body !! k) eqn:E.
  - apply bool_decide_eq_true. eauto.
  - apply bool_decide_eq_false. intros [v Hv]. discriminate.
Qed.

Lemma strict_equals_undefined v :
  strict_equals v JUndefined = true <-> v = JUndefined.
Proof. destruct v; simpl; split; intros H; congruence. Qed.

Lemma top_p_rejected_iff v :
  top_p_rejected v = true <->
  v <> JUndefined /\ strict_equals v (JNumber 1) = false.
Proof.
  unfold top_p_rejected. rewrite andb_true_iff, !negb_true_iff.
  split; intros [H1 H2]; split; try assumption.
  - intros Hv. apply strict_equals_undefined in Hv. congruence.
  - destruct (strict_equals v JUndefined) eqn:E; [| reflexivity].
    apply strict_equals_undefined in E. contradiction.
Qed.

Lemma strip_temperature (body : gmap string jsvalue) :
  stripOSeriesParameters body !! "temperature" = None.
Proof.
  unfold stripOSeriesParameters.
  set (b1 := if has_property body "temperature"
             then delete "temperature" body else body).
  assert (Hb1 : b1 !! "temperature" = None).
  { subst b1. rewrite has_property_lookup.
    destruct (body !! "temperature") eqn:E;
      [apply lookup_delete_eq | exact E]. }
  destruct (_ && _); [| exact Hb1].
  rewrite lookup_delete_ne by discriminate. exact Hb1.
Qed.

Lemma strip_other (body : gmap string jsvalue) k :
  k <> "temperature" -> k <> "top_p" ->
  stripOSeriesParameters body !! k = body !! k.
Proof.
  intros Ht Hp. unfold stripOSeriesParameters.
  set (b1 := if has_property body "temperature"
             then delete "temperature" body else body).
  assert (Hb1 : b1 !! k = body !! k).
  { subst b1. destruct (has_property body "temperature");
      [apply lookup_delete_ne; congruence | reflexivity]. }
  destruct (_ && _); [| exact Hb1].
  rewrite lookup_delete_ne by congruence. exact Hb1.
Qed.

Lemma strip_top_p (body : gmap string jsvalue) :
  stripOSeriesParameters body !! "top_p" =
    match body !! "top_p" with
    | Some v => if top_p_rejected v then None else Some v
    | None => None
    end.
Proof.
  unfold stripOSeriesParameters.
  set (b1 := if has_property body "temperature"
             then delete "temperature" body else body).
  assert (Hb1 : b1 !! "top_p" = body !! "top_p").
  { subst b1. destruct (has_property body "temperature");
      [apply lookup_delete_ne; discriminate | reflexivity]. }
  rewrite has_property_lookup. unfold get_property. rewrite Hb1.
  destruct (body !! "top_p") as [v|] eqn:E; simpl.
  - fold (top_p_rejected v). destruct (top_p_rejected v).
    + apply lookup_delete_eq.
    + now rewrite Hb1.
  - now rewrite Hb1.
Qed.

End SanitizeFacts.

Import SanitizeFacts.

(** C4, as amended.  [interceptBody] never fails: on an object it yields
    the object as mutated, and [undefined] stays [undefined].  When the
    endpoint's model passes the o-series prefix test, then relative to the
    body left by the base interception: [temperature] is absent afterwards;
    a [top_p] that is present is removed if and only if its value is neither
    [undefined] nor exactly 1, and is otherwise left as it was; no other
    property changes.  When the model does not pass the test the body is
    exactly what the base interception left. *)
Theorem interceptBody_sanitize
    (super_interceptBody :
       Endpoint.AzureOpenAIEndpoint -> gmap string jsvalue -> gmap string jsvalue)
    (this : Endpoint.AzureOpenAIEndpoint) (body : gmap string jsvalue) :
  Endpoint.interceptBody super_interceptBody this None = None /\
  exists body',
    Endpoint.interceptBody super_interceptBody this (Some body) = Some body' /\
    let base := super_interceptBody this body in
    if Endpoint.isOSeriesModel (Endpoint.model this) then
      body' !! "temperature" = None /\
      (forall v, base !! "top_p" = Some v ->
         (body' !! "top_p" = None <->
            v <> JUndefined /\ strict_equals v (JNumber 1) = false) /\
         (body' !! "top_p" = None \/ body' !! "top_p" = Some v)) /\
      (base !! "top_p" = None -> body' !! "top_p" = None) /\
      (forall k, k <> "temperature" -> k <> "top_p" -> body' !! k = base !! k)
    else body' = base.
Proof.
  split; [reflexivity |].
  unfold Endpoint.interceptBody.
  destruct (Endpoint.isOSeriesModel (Endpoint.model this)).
  - eexists; split; [reflexivity |]. cbv zeta.
    split; [apply strip_temperature |].
    split; [| split].
    + intros v Hv. rewrite strip_top_p, Hv.
      rewrite <- top_p_rejected_iff.
      destruct (top_p_rejected v); split; auto; split; congruence.
    + intros Hnone. now rewrite strip_top_p, Hnone.
    + intros k Ht Hp. now apply strip_other.
  - eexists; split; reflexivity.
Qed.

(** The examples of the specification: for [o3-mini] a [temperature] and a
    [top_p] of 0.1 are removed, a [top_p] of 1 stays; for [gpt-4o] nothing
    changes. *)
Example interceptBody_o3_mini :
  Endpoint.interceptBody (fun _ b => b) (sample_endpoint "o3-mini")
    (Some (<["temperature" := JNumber (1 # 10)]>
             (<["top_p" := JNumber (1 # 10)]> {["model" := JString "o3-mini"]})))
  = Some {["model" := JString "o3-mini"]}
  /\ Endpoint.interceptBody (fun _ b => b) (sample_endpoint "o3-mini")
       (Some (<["top_p" := JNumber 1]> {["model" := JString "o3-mini"]}))
     = Some (<["top_p" := JNumber 1]> {["model" := JString "o3-mini"]})
  /\ Endpoint.interceptBody (fun _ b => b) (sample_endpoint "gpt-4o")
       (Some (<["temperature" := JNumber (1 # 10)]>
                {["top_p" := JNumber (1 # 10)]}))
     = Some (<["temperature" := JNumber (1 # 10)]>
               {["top_p" := JNumber (1 # 10)]}).
Proof. repeat split; vm_compute; reflexivity. Qed.

(** C4, as stated, fails on a body whose [top_p] is present with the value
    [undefined]: the property is in the body and its value is not 1, yet
    [interceptBody] leaves it in place, because the code also requires the
    value to differ from [undefined]. *)
Lemma interceptBody_sanitize_counterexample :
  Endpoint.isOSeriesModel (Endpoint.model (sample_endpoint "o3-mini")) = true /\
  Endpoint.has_property {["top_p" := JUndefined]} "top_p" = true /\
  strict_equals (Endpoint.get_property {["top_p" := JUndefined]} "top_p")
    (JNumber 1) = false /\
  Endpoint.interceptBody (fun _ b => b) (sample_endpoint "o3-mini")
    (Some {["top_p" := JUndefined]})
  = Some {["top_p" := JUndefined]} /\
  ({["top_p" := JUndefined]} : gmap string jsvalue) !! "top_p" = Some JUndefined.
Proof. repeat split; vm_compute; reflexivity. Qed.

(* ===================================================================== *)
(** ** Endpoint Adapter: [makeChatRequest] and [cloneWithTokenOverride] *)
(* ===================================================================== *)

Module AdapterFacts.

Import Endpoint.

Lemma authenticationFailed_includes m :
  includes (authenticationFailed m) m = true /\
  includes (authenticationFailed m) "Please check your API key configuration"
  = true.
Proof.
  unfold authenticationFailed. split.
  - apply includes_app.
  - replace ("Azure OpenAI authentication failed: " +:+ m
             +:+ ". Please check your API key configuration.")
      with (("Azure OpenAI authentication failed: " +:+ m +:+ ". ")
            +:+ "Please check your API key configuration" +:+ ".")
      by (now rewrite !app_assoc).
    apply includes_app.
Qed.

Lemma createInstance_fresh info key url (h : store) :
  h !! fst (createInstance info key url h) = None.
Proof.
  unfold createInstance. simpl. apply not_elem_of_dom, is_fresh.
Qed.

End AdapterFacts.

Import AdapterFacts.

(** C7.  [makeChatRequest] makes exactly one call of the base transport
    (the transport state it leaves is the one that single call leaves: no
    retry) and returns its response.  When that call throws an object with a
    message that contains [auth] or [authentication], it throws instead a
    new [Error] that carries nothing of the original but its message text:
    the message is [Azure OpenAI authentication failed: <original>. Please
    check your API key configuration.], which includes the original message
    and the advice about the API key.  Every other thrown value is thrown
    again as it is. *)
Theorem makeChatRequest_classifies {Request Response Transport : Type}
    (super_makeChatRequest :
       Request -> Transport -> completion Response * Transport)
    (request : Request) (t : Transport) :
  snd (Endpoint.makeChatRequest super_makeChatRequest request t)
  = snd (super_makeChatRequest request t) /\
  match fst (super_makeChatRequest request t) with
  | Return response =>
      fst (Endpoint.makeChatRequest super_makeChatRequest request t)
      = Return response
  | Throw (ThrownObject (Some m) extra) =>
      if includes m "auth" || includes m "authentication" then
        fst (Endpoint.makeChatRequest super_makeChatRequest request t)
        = Throw (new_Error (authenticationFailed m)) /\
        includes (authenticationFailed m) m = true /\
        includes (authenticationFailed m)
          "Please check your API key configuration" = true
      else
        fst (Endpoint.makeChatRequest super_makeChatRequest request t)
        = Throw (ThrownObject (Some m) extra)
  | Throw error =>
      fst (Endpoint.makeChatRequest super_makeChatRequest request t)
      = Throw error
  end.
Proof.
  unfold Endpoint.makeChatRequest.
  destruct (super_makeChatRequest request t) as [outcome t'] eqn:Hsuper.
  cbn [fst snd].
  destruct outcome as [response | [[m |] extra | v]]; cbn [fst snd];
    try (split; reflexivity).
  destruct (includes m "auth" || includes m "authentication"); cbn [fst snd].
  - split; [reflexivity |]. split; [reflexivity |].
    apply authenticationFailed_includes.
  - split; reflexivity.
Qed.

(** One failing request reaches the transport once, whatever it throws. *)
Example makeChatRequest_single_call :
  Endpoint.makeChatRequest
    (rejectingTransport (ThrownObject (Some "Unauthorized: authentication token expired")
                           [("code", JNumber 401)]))
    tt 0%nat
  = (Throw (new_Error "Azure OpenAI authentication failed: Unauthorized: authentication token expired. Please check your API key configuration."),
     1%nat)
  /\ Endpoint.makeChatRequest
       (rejectingTransport (ThrownObject (Some "429 Too Many Requests") []))
       tt 0%nat
     = (Throw (ThrownObject (Some "429 Too Many Requests") []), 1%nat)
  /\ Endpoint.makeChatRequest
       (rejectingTransport (ThrownPrimitive (JString "auth")))
       tt 0%nat
     = (Throw (ThrownPrimitive (JString "auth")), 1%nat).
Proof. repeat split; reflexivity. Qed.

(** C8.  For an endpoint [this] that lives in the store at [ref],
    [cloneWithTokenOverride n] allocates a new endpoint: its reference was
    not in use, its model information has [maxInputTokens] equal to [n] and
    every other field ([id], hence the model id, [capabilities], and the
    rest) equal to that of [this], and its API key and URL are those of
    [this].  The receiver and every other endpoint of the store are as
    before. *)
Theorem cloneWithTokenOverride_copy (this : Endpoint.AzureOpenAIEndpoint)
    (n : Z) (h : gmap nat Endpoint.AzureOpenAIEndpoint) (ref : nat) :
  h !! ref = Some this ->
  exists new h' clone,
    Endpoint.cloneWithTokenOverride this n h = (new, h') /\
    h !! new = None /\
    new <> ref /\
    h' !! new = Some clone /\
    maxInputTokens (Endpoint._azureModelInfo clone) = Some n /\
    Endpoint.model clone = Endpoint.model this /\
    Endpoint._azureApiKey clone = Endpoint._azureApiKey this /\
    Endpoint._azureModelUrl clone = Endpoint._azureModelUrl this /\
    id (Endpoint._azureModelInfo clone) = id (Endpoint._azureModelInfo this) /\
    capabilities (Endpoint._azureModelInfo clone)
    = capabilities (Endpoint._azureModelInfo this) /\
    info_rest (Endpoint._azureModelInfo clone)
    = info_rest (Endpoint._azureModelInfo this) /\
    h' !! ref = Some this /\
    (forall r, r <> new -> h' !! r = h !! r).
Proof.
  intros Href.
  unfold Endpoint.cloneWithTokenOverride.
  set (info := Endpoint.withMaxInputTokens (Endpoint._azureModelInfo this) n).
  pose proof (createInstance_fresh info (Endpoint._azureApiKey this)
                (Endpoint._azureModelUrl this) h) as Hfresh.
  unfold Endpoint.createInstance in *. cbn [fst] in Hfresh.
  set (new := fresh (dom h)) in *.
  assert (Hne : new <> ref) by (intros ->; congruence).
  exists new, (<[new := Endpoint.mkEndpoint info (Endpoint._azureApiKey this)
                          (Endpoint._azureModelUrl this)]> h),
    (Endpoint.mkEndpoint info (Endpoint._azureApiKey this)
       (Endpoint._azureModelUrl this)).
  repeat split; try reflexivity; try assumption.
  - apply lookup_insert_eq.
  - rewrite lookup_insert_ne by exact Hne. exact Href.
  - intros r Hr. apply lookup_insert_ne. congruence.
Qed.

Lemma cloneWithTokenOverride_copy_witness :
  exists new h' clone,
    Endpoint.cloneWithTokenOverride (sample_endpoint "o3-mini") 64000
      {[ 0%nat := sample_endpoint "o3-mini" ]} = (new, h') /\
    ({[ 0%nat := sample_endpoint "o3-mini" ]}
       : gmap nat Endpoint.AzureOpenAIEndpoint) !! new = None /\
    new <> 0%nat /\
    h' !! new = Some clone /\
    maxInputTokens (Endpoint._azureModelInfo clone) = Some 64000%Z /\
    Endpoint.model clone = Endpoint.model (sample_endpoint "o3-mini") /\
    Endpoint._azureApiKey clone
    = Endpoint._azureApiKey (sample_endpoint "o3-mini") /\
    Endpoint._azureModelUrl clone
    = Endpoint._azureModelUrl (sample_endpoint "o3-mini") /\
    id (Endpoint._azureModelInfo clone)
    = id (Endpoint._azureModelInfo (sample_endpoint "o3-mini")) /\
    capabilities (Endpoint._azureModelInfo clone)
    = capabilities (Endpoint._azureModelInfo (sample_endpoint "o3-mini")) /\
    info_rest (Endpoint._azureModelInfo clone)
    = info_rest (Endpoint._azureModelInfo (sample_endpoint "o3-mini")) /\
    h' !! 0%nat = Some (sample_endpoint "o3-mini") /\
    (forall r, r <> new ->
       h' !! r
       = ({[ 0%nat := sample_endpoint "o3-mini" ]}
            : gmap nat Endpoint.AzureOpenAIEndpoint) !! r).
Proof.
  apply (cloneWithTokenOverride_copy (sample_endpoint "o3-mini") 64000
           {[ 0%nat := sample_endpoint "o3-mini" ]} 0%nat).
  reflexivity.
Defined.

(* ===================================================================== *)
(** ** Capability Deriver: [getModelInfo] *)
(* ===================================================================== *)

Module DeriveFacts.

Import Provider.

Lemma enhance_oseries modelId baseInfo :
  isOSeriesModel modelId = true ->
  enhance modelId baseInfo =
    withLimits
      (withSupports baseInfo
         (<["vision" := supportsVision modelId]>
            (<["tool_calls" := true]> (supports (capabilities baseInfo)))))
      oSeriesLimits.
Proof. unfold enhance. intros ->. reflexivity. Qed.

Lemma enhance_other_limits modelId baseInfo :
  isOSeriesModel modelId = false ->
  limits (capabilities (enhance modelId baseInfo))
  = limits (capabilities baseInfo).
Proof.
  unfold enhance. intros ->.
  destruct (includes (toLowerCase modelId) "gpt-4o"
            || includes (toLowerCase modelId) "gpt-4.1"); reflexivity.
Qed.

Lemma enhance_id modelId baseInfo : id (enhance modelId baseInfo) = id baseInfo.
Proof.
  unfold enhance. destruct (isOSeriesModel modelId); [reflexivity |].
  destruct (includes (toLowerCase modelId) "gpt-4o"
            || includes (toLowerCase modelId) "gpt-4.1"); reflexivity.
Qed.

End DeriveFacts.

Import DeriveFacts.

(** C5.  For every model id that passes the o-series prefix test and every
    baseline (whatever the base registry returns), the record
    [getModelInfo] produces has [tool_calls] set to [true], [vision] set to
    [supportsVision modelId], which is [true] exactly when the lower-cased
    id contains a member of the vision list, and the limits 300000, 200000
    and 100000 whatever the baseline had; the other [supports] flags are the
    baseline's.  For [o3-mini] the context window is 200000 + 100000. *)
Theorem getModelInfo_oseries {Caps : Type}
    (super_getModelInfo : string -> string -> option Caps -> IChatModelInformation)
    (modelId apiKey : string) (modelCapabilities : option Caps) :
  Provider.isOSeriesModel modelId = true ->
  let baseline := super_getModelInfo modelId apiKey modelCapabilities in
  let info := Provider.getModelInfo super_getModelInfo modelId apiKey
                modelCapabilities in
  supports (capabilities info) !! "tool_calls" = Some true /\
  supports (capabilities info) !! "vision"
  = Some (Provider.supportsVision modelId) /\
  (Provider.supportsVision modelId = true <->
     exists family, In family Provider.visionModels
                    /\ includes (toLowerCase modelId) family = true) /\
  max_context_window_tokens (limits (capabilities info)) = 300000%Z /\
  max_prompt_tokens (limits (capabilities info)) = 200000%Z /\
  max_output_tokens (limits (capabilities info)) = 100000%Z /\
  (forall flag, flag <> "tool_calls" -> flag <> "vision" ->
     supports (capabilities info) !! flag
     = supports (capabilities baseline) !! flag) /\
  (forall key caps,
     max_context_window_tokens
       (limits (capabilities
                  (Provider.getModelInfo super_getModelInfo "o3-mini" key caps)))
     = (200000 + 100000)%Z).
Proof.
  intros Ho. cbv zeta. unfold Provider.getModelInfo.
  rewrite (enhance_oseries _ _ Ho). cbn [Provider.withLimits Provider.withSupports
    capabilities supports limits oSeriesLimits max_context_window_tokens
    max_prompt_tokens max_output_tokens].
  split; [| split; [| split; [| split; [| split; [| split; [| split]]]]]];
    try reflexivity.
  - rewrite lookup_insert_ne by discriminate. apply lookup_insert_eq.
  - apply lookup_insert_eq.
  - unfold Provider.supportsVision. apply some_true_iff.
  - intros flag Ht Hv. rewrite !lookup_insert_ne by congruence. reflexivity.
Qed.

Lemma getModelInfo_oseries_witness :
  let super := fun m (_ : string) (_ : option unit) =>
                 sample_baseline m (mkLimits 100000 100000 8192) in
  let baseline := super "o3-mini" "key" None in
  let info := Provider.getModelInfo super "o3-mini" "key" None in
  supports (capabilities info) !! "tool_calls" = Some true /\
  supports (capabilities info) !! "vision"
  = Some (Provider.supportsVision "o3-mini") /\
  (Provider.supportsVision "o3-mini" = true <->
     exists family, In family Provider.visionModels
                    /\ includes (toLowerCase "o3-mini") family = true) /\
  max_context_window_tokens (limits (capabilities info)) = 300000%Z /\
  max_prompt_tokens (limits (capabilities info)) = 200000%Z /\
  max_output_tokens (limits (capabilities info)) = 100000%Z /\
  (forall flag, flag <> "tool_calls" -> flag <> "vision" ->
     supports (capabilities info) !! flag
     = supports (capabilities baseline) !! flag) /\
  (forall key caps,
     max_context_window_tokens
       (limits (capabilities (Provider.getModelInfo super "o3-mini" key caps)))
     = (200000 + 100000)%Z).
Proof.
  apply (getModelInfo_oseries
           (fun m (_ : string) (_ : option unit) =>
              sample_baseline m (mkLimits 100000 100000 8192))
           "o3-mini" "key" None).
  reflexivity.
Defined.

(** C9, as amended.  For a model id that passes the o-series prefix test
    the derived record has the limits 300000, 200000 and 100000 whatever the
    baseline, so the window invariant holds with equality.  For every other
    model id the derived record keeps the limits of the baseline, so it
    satisfies the window invariant exactly when the baseline does. *)
Theorem getModelInfo_window_invariant (modelId : string)
    (baseline : IChatModelInformation) :
  let info := Provider.enhance modelId baseline in
  if Provider.isOSeriesModel modelId then
    limits (capabilities info) = oSeriesLimits /\
    (max_prompt_tokens (limits (capabilities info))
     + max_output_tokens (limits (capabilities info))
     = max_context_window_tokens (limits (capabilities info)))%Z /\
    window_invariant (limits (capabilities info))
  else
    limits (capabilities info) = limits (capabilities baseline) /\
    (window_invariant (limits (capabilities info))
     <-> window_invariant (limits (capabilities baseline))).
Proof.
  cbv zeta. destruct (Provider.isOSeriesModel modelId) eqn:Ho.
  - rewrite (enhance_oseries _ _ Ho). cbn. unfold window_invariant. cbn.
    repeat split; lia.
  - rewrite (enhance_other_limits _ _ Ho). split; [reflexivity | tauto].
Qed.

(** C9, as stated, fails for a model outside the o-series: with the
    baseline limits 100000, 100000 and 8192 the record derived for [gpt-4]
    keeps them, and 100000 + 8192 exceeds 100000. *)
Lemma getModelInfo_window_invariant_counterexample :
  limits (capabilities
            (Provider.enhance "gpt-4"
               (sample_baseline "gpt-4" (mkLimits 100000 100000 8192))))
  = mkLimits 100000 100000 8192 /\
  ~ window_invariant
      (limits (capabilities
                 (Provider.enhance "gpt-4"
                    (sample_baseline "gpt-4" (mkLimits 100000 100000 8192))))).
Proof.
  split; [reflexivity |].
  rewrite enhance_other_limits by reflexivity.
  unfold window_invariant, sample_baseline. cbn. lia.
Qed.

(* ===================================================================== *)
(** ** Registration Workflow: [registerModel] *)
(* ===================================================================== *)

(** C10.  The prefix test and the surface predicate disagree in both
    directions.  [o4] passes the prefix test (in both classes) and fails the
    surface predicate; [gpt-4.1] passes the surface predicate and fails the
    prefix test.  Consequently, when the base registry reports the model id
    it was asked for, registering [o4] at a gateway URL yields an endpoint
    with the legacy chat-completions URL that nevertheless carries the
    o-series limits and whose [interceptBody] strips [temperature]. *)
Theorem reasoning_tests_differ {Caps : Type}
    (super_getModelInfo : string -> string -> option Caps -> IChatModelInformation)
    (super_interceptBody :
       Endpoint.AzureOpenAIEndpoint -> gmap string jsvalue -> gmap string jsvalue)
    (key : string) (caps : option Caps)
    (h : gmap nat Endpoint.AzureOpenAIEndpoint) :
  (forall m k c, id (super_getModelInfo m k c) = m) ->
  (Endpoint.isOSeriesModel "o4" = true /\
   Provider.isOSeriesModel "o4" = true /\
   AzureUtils.shouldUseResponsesAPI "o4" = false) /\
  (AzureUtils.shouldUseResponsesAPI "gpt-4.1" = true /\
   Endpoint.isOSeriesModel "gpt-4.1" = false /\
   Provider.isOSeriesModel "gpt-4.1" = false) /\
  exists ref h' e,
    Provider.registerModel super_getModelInfo
      (Provider.mkConfig "o4" (Some key) (Some "https://x.openai.azure.com") caps)
      h
    = (Return (Provider.mkRegistration "Azure-o4" ref), h') /\
    h' !! ref = Some e /\
    Endpoint._azureModelUrl e
    = "https://x.openai.azure.com/openai/deployments/o4/chat/completions?api-version=2025-04-01-preview" /\
    limits (capabilities (Endpoint._azureModelInfo e)) = oSeriesLimits /\
    forall body,
    exists body',
      Endpoint.interceptBody super_interceptBody e (Some body) = Some body' /\
      body' !! "temperature" = None.
Proof.
  intros Hid.
  split; [repeat split; reflexivity |].
  split; [repeat split; reflexivity |].
  unfold Provider.registerModel, Provider.isPerModelConfig.
  cbn [Provider.apiKey Provider.deploymentUrl Provider.modelId
       Provider.config_capabilities].
  assert (Hurl : resolveAzureUrl "o4" "https://x.openai.azure.com"
                   (Some (Provider.supportsResponsesAPI "o4"))
                 = Return "https://x.openai.azure.com/openai/deployments/o4/chat/completions?api-version=2025-04-01-preview")
    by reflexivity.
  rewrite Hurl. unfold Endpoint.createInstance.
  set (info := Provider.getModelInfo super_getModelInfo "o4" key caps).
  set (ref := fresh (dom h)).
  exists ref. eexists. eexists.
  split; [reflexivity |].
  split; [apply lookup_insert_eq |].
  split; [reflexivity |].
  assert (Ho : Provider.isOSeriesModel "o4" = true) by reflexivity.
  split.
  - subst info. unfold Provider.getModelInfo.
    rewrite (enhance_oseries _ _ Ho). reflexivity.
  - intros body. unfold Endpoint.interceptBody, Endpoint.model.
    cbn [Endpoint._azureModelInfo].
    subst info. unfold Provider.getModelInfo. rewrite enhance_id, Hid.
    change (Endpoint.isOSeriesModel "o4") with true. cbv iota.
    eexists. split; [reflexivity |]. apply strip_temperature.
Qed.

Lemma reasoning_tests_differ_witness :
  (Endpoint.isOSeriesModel "o4" = true /\
   Provider.isOSeriesModel "o4" = true /\
   AzureUtils.shouldUseResponsesAPI "o4" = false) /\
  (AzureUtils.shouldUseResponsesAPI "gpt-4.1" = true /\
   Endpoint.isOSeriesModel "gpt-4.1" = false /\
   Provider.isOSeriesModel "gpt-4.1" = false) /\
  exists ref h' e,
    Provider.registerModel
      (fun m (_ : string) (_ : option unit) =>
         sample_baseline m (mkLimits 100000 100000 8192))
      (Provider.mkConfig "o4" (Some "key") (Some "https://x.openai.azure.com") None)
      ∅
    = (Return (Provider.mkRegistration "Azure-o4" ref), h') /\
    h' !! ref = Some e /\
    Endpoint._azureModelUrl e
    = "https://x.openai.azure.com/openai/deployments/o4/chat/completions?api-version=2025-04-01-preview" /\
    limits (capabilities (Endpoint._azureModelInfo e)) = oSeriesLimits /\
    forall body,
    exists body',
      Endpoint.interceptBody (fun _ b => b) e (Some body) = Some body' /\
      body' !! "temperature" = None.
Proof.
  apply (reasoning_tests_differ
           (fun m (_ : string) (_ : option unit) =>
              sample_baseline m (mkLimits 100000 100000 8192))
           (fun _ b => b) "key" None ∅).
  reflexivity.
Defined.

(* ===================================================================== *)
(** ** Further properties of the URL Normalizer *)
(* ===================================================================== *)

Module MoreStringFacts.

Lemma includes_extend s p a c :
  includes s p = true -> includes (a +:+ s +:+ c) p = true.
Proof.
  intros H. apply includes_inv in H as (x & y & ->).
  replace (a +:+ (x +:+ p +:+ y) +:+ c) with ((a +:+ x) +:+ p +:+ (y +:+ c))
    by (now rewrite !app_assoc).
  apply includes_app.
Qed.

Lemma includes_suffix s p c : includes s p = true -> includes (s +:+ c) p = true.
Proof. intros H. exact (includes_extend s p "" c H). Qed.

Lemma includes_pattern_prefix s p q :
  includes s (p +:+ q) = true -> includes s p = true.
Proof.
  intros H. apply includes_inv in H as (x & y & ->).
  rewrite (app_assoc p q y). apply includes_app.
Qed.

Lemma startsWith_suffix s p c :
  startsWith s p = true -> startsWith (s +:+ c) p = true.
Proof.
  intros H. apply startsWith_inv in H as [d ->].
  rewrite app_assoc. apply startsWith_app.
Qed.

Lemma toLowerCase_app a b :
  toLowerCase (a +:+ b) = toLowerCase a +:+ toLowerCase b.
Proof.
  induction a as [|x a IH]; [reflexivity |].
  change (String x a +:+ b) with (String x (a +:+ b)). simpl.
  now rewrite IH.
Qed.

Lemma lower_unit_idempotent c : lower_unit (lower_unit c) = lower_unit c.
Proof. destruct c as [[] [] [] [] [] [] [] []]; reflexivity. Qed.

Lemma toLowerCase_idempotent s : toLowerCase (toLowerCase s) = toLowerCase s.
Proof.
  induction s as [|c s IH]; simpl; [reflexivity |].
  now rewrite lower_unit_idempotent, IH.
Qed.

End MoreStringFacts.

Import MoreStringFacts.

Module MoreResolveFacts.

Lemma trimUrl_v1_slash b : trimUrl (b +:+ "/v1/") = b.
Proof.
  replace (b +:+ "/v1/") with ((b +:+ "/v1") +:+ "/")
    by (now rewrite app_assoc).
  unfold trimUrl.
  pose proof (slice_app (b +:+ "/v1") "/") as Hs.
  change (String.length "/") with 1%nat in Hs.
  rewrite (endsWith_app (b +:+ "/v1") "/"), Hs, (endsWith_app b "/v1").
  exact (slice_app b "/v1").
Qed.

Lemma hasRequestPath_v1_slash b :
  hasRequestPath b = false -> hasRequestPath (b +:+ "/v1/") = false.
Proof.
  intros H.
  replace (b +:+ "/v1/") with ((b +:+ "/v1") +:+ "/")
    by (now rewrite app_assoc).
  now apply hasRequestPath_slash, hasRequestPath_v1.
Qed.

End MoreResolveFacts.

Import MoreResolveFacts.

(** X1.  The model id matters to [resolveAzureUrl] only on the gateway,
    legacy-surface path: when the URL is already resolved, or its trimmed
    form has a raw-inference marker, or has no gateway marker, or the
    Responses flag is set, two different model ids give the same outcome
    (the same URL or the same error). *)
Theorem resolveAzureUrl_modelId_irrelevant (m m' u : string) (f : option bool) :
  hasRequestPath u = true
  \/ hasRawInferenceMarker (trimUrl u) = true
  \/ hasGatewayMarker (trimUrl u) = false
  \/ truthy f = true ->
  resolveAzureUrl m u f = resolveAzureUrl m' u f.
Proof.
  intros H. destruct (hasRequestPath u) eqn:Hpath.
  - now rewrite !resolveAzureUrl_guarded.
  - rewrite !resolveAzureUrl_unguarded by assumption. cbv zeta.
    destruct H as [H | [H | [H | H]]]; [discriminate | | |].
    + now rewrite H.
    + rewrite H. now destruct (hasRawInferenceMarker (trimUrl u)).
    + rewrite H. now destruct (hasRawInferenceMarker (trimUrl u)),
        (hasGatewayMarker (trimUrl u)).
Qed.

Lemma resolveAzureUrl_modelId_irrelevant_witness :
  resolveAzureUrl "o3-mini" "https://test.openai.azure.com/v1" (Some true)
  = resolveAzureUrl "my-deployment" "https://test.openai.azure.com/v1" (Some true).
Proof.
  apply (resolveAzureUrl_modelId_irrelevant "o3-mini" "my-deployment"
           "https://test.openai.azure.com/v1" (Some true)).
  right. right. right. reflexivity.
Defined.

(** X2.  What [resolveAzureUrl] trims off the end of a URL is always one
    of the four suffixes (nothing), [/], [/v1] and [/v1/]; and for every
    base [b], also one that itself ends with a slash or with [/v1], the
    inputs [b/v1] and [b/v1/] are trimmed back to exactly [b], so when [b]
    has no request-path marker these two inputs resolve to the same
    outcome. *)
Theorem trimUrl_suffixes (u b modelId : string) (f : option bool) :
  (exists suffix, In suffix trimmedSuffixes /\ u = trimUrl u +:+ suffix) /\
  trimUrl (b +:+ "/v1") = b /\
  trimUrl (b +:+ "/v1/") = b /\
  (hasRequestPath b = false ->
   resolveAzureUrl modelId (b +:+ "/v1/") f
   = resolveAzureUrl modelId (b +:+ "/v1") f).
Proof.
  split; [| split; [apply trimUrl_v1 | split; [apply trimUrl_v1_slash |]]].
  - destruct (trimUrl_steps u) as (u1 & [Hu | [_ Hu]] & [Hv | [_ Hv]]).
    + exists "/v1/". split; [simpl; tauto |].
      etransitivity; [exact Hu |]. rewrite Hv. apply app_assoc.
    + exists "/". split; [simpl; tauto |]. rewrite Hv. exact Hu.
    + exists "/v1". split; [simpl; tauto |]. subst u1. exact Hv.
    + exists "". split; [simpl; tauto |].
      rewrite app_empty_r. congruence.
  - intros Hb.
    rewrite (resolveAzureUrl_unguarded modelId (b +:+ "/v1/") f)
      by now apply hasRequestPath_v1_slash.
    rewrite (resolveAzureUrl_unguarded modelId (b +:+ "/v1") f)
      by now apply hasRequestPath_v1.
    now rewrite trimUrl_v1, trimUrl_v1_slash.
Qed.

(** X3.  On a URL without a request-path marker, whatever
    [resolveAzureUrl] returns starts with the trimmed URL and names the
    surface the flag asked for: it contains [/responses] when the flag is
    set and [/chat/completions] when it is not or is omitted. *)
Theorem resolveAzureUrl_surface (modelId u r : string) (f : option bool) :
  hasRequestPath u = false ->
  resolveAzureUrl modelId u f = Return r ->
  startsWith r (trimUrl u) = true /\
  (if truthy f then includes r "/responses" = true
   else includes r "/chat/completions" = true).
Proof.
  intros Hpath Hr.
  rewrite (resolveAzureUrl_unguarded _ _ _ Hpath) in Hr. cbv zeta in Hr.
  destruct (hasRawInferenceMarker (trimUrl u));
    [| destruct (hasGatewayMarker (trimUrl u)); [| discriminate]];
    destruct (truthy f); injection Hr as <-;
    (split; [apply startsWith_app |]).
  - pose proof (includes_app (trimUrl u +:+ "/v1") "/responses" "") as H.
    now rewrite app_assoc in H.
  - pose proof (includes_app (trimUrl u +:+ "/v1") "/chat/completions" "") as H.
    now rewrite app_assoc in H.
  - pose proof (includes_app (trimUrl u +:+ "/openai/v1") "/responses"
                  "?api-version=2025-04-01-preview") as H.
    now rewrite app_assoc in H.
  - pose proof (includes_app ((trimUrl u +:+ "/openai/deployments/") +:+ modelId)
                  "/chat/completions" "?api-version=2025-04-01-preview") as H.
    now rewrite !app_assoc in H.
Qed.

Lemma resolveAzureUrl_surface_witness :
  startsWith "https://test.models.ai.azure.com/v1/chat/completions"
    (trimUrl "https://test.models.ai.azure.com/v1/") = true /\
  (if truthy None
   then includes "https://test.models.ai.azure.com/v1/chat/completions"
          "/responses" = true
   else includes "https://test.models.ai.azure.com/v1/chat/completions"
          "/chat/completions" = true).
Proof.
  apply (resolveAzureUrl_surface "gpt-4o" "https://test.models.ai.azure.com/v1/"
           "https://test.models.ai.azure.com/v1/chat/completions" None);
    reflexivity.
Defined.

(* ===================================================================== *)
(** ** Further properties of the model-family tests *)
(* ===================================================================== *)

Module FamilyFacts.

Lemma some_includes_extend (tokens : list string) m pre suf :
  some (fun token => includes (toLowerCase m) token) tokens = true ->
  some (fun token => includes (toLowerCase (pre +:+ m +:+ suf)) token) tokens
  = true.
Proof.
  intros H. apply some_true_iff in H as (token & Hin & Hinc).
  apply some_true_iff. exists token. split; [exact Hin |].
  rewrite !toLowerCase_app. now apply includes_extend.
Qed.

Lemma some_startsWith_suffix (alts : list string) m suf :
  some (fun alt => startsWith (toLowerCase m) alt) alts = true ->
  some (fun alt => startsWith (toLowerCase (m +:+ suf)) alt) alts = true.
Proof.
  intros H. apply some_true_iff in H as (alt & Hin & Hst).
  apply some_true_iff. exists alt. split; [exact Hin |].
  rewrite toLowerCase_app. now apply startsWith_suffix.
Qed.


End FamilyFacts.

Import FamilyFacts.

(** X4.  The three family tests ignore letter case: each gives the same
    answer on a model id and on its lower-cased form, hence on any two ids
    that differ only in letter case. *)
Theorem family_tests_case_insensitive (a b : string) :
  (AzureUtils.shouldUseResponsesAPI (toLowerCase a)
   = AzureUtils.shouldUseResponsesAPI a /\
   Provider.isOSeriesModel (toLowerCase a) = Provider.isOSeriesModel a /\
   Endpoint.isOSeriesModel (toLowerCase a) = Endpoint.isOSeriesModel a /\
   Provider.supportsVision (toLowerCase a) = Provider.supportsVision a) /\
  (toLowerCase a = toLowerCase b ->
   AzureUtils.shouldUseResponsesAPI a = AzureUtils.shouldUseResponsesAPI b /\
   Provider.isOSeriesModel a = Provider.isOSeriesModel b /\
   Endpoint.isOSeriesModel a = Endpoint.isOSeriesModel b /\
   Provider.supportsVision a = Provider.supportsVision b).
Proof.
  unfold AzureUtils.shouldUseResponsesAPI, Provider.isOSeriesModel,
    Endpoint.isOSeriesModel, Provider.supportsVision.
  split.
  - rewrite toLowerCase_idempotent. repeat split; reflexivity.
  - intros ->. repeat split; reflexivity.
Qed.

(** X5.  The surface predicate and the vision test are substring tests, so
    they survive decoration: once a model id is accepted, every id obtained
    by putting text before or after it (a deployment prefix, a [-preview]
    or date suffix) is accepted too. *)
Theorem substring_tests_extend (m pre suf : string) :
  (AzureUtils.shouldUseResponsesAPI m = true ->
   AzureUtils.shouldUseResponsesAPI (pre +:+ m +:+ suf) = true) /\
  (Provider.supportsVision m = true ->
   Provider.supportsVision (pre +:+ m +:+ suf) = true).
Proof.
  unfold AzureUtils.shouldUseResponsesAPI, Provider.supportsVision.
  split; apply some_includes_extend.
Qed.

(** X6.  The o-series test is a prefix test on the lower-cased id, so any
    suffix keeps an accepted id accepted, in the registry's copy and in the
    endpoint's copy alike: [o3-mini-2025-01-31] is o-series because
    [o3-mini] is. *)
Theorem isOSeriesModel_suffix (m suf : string) :
  Provider.isOSeriesModel m = true ->
  Provider.isOSeriesModel (m +:+ suf) = true /\
  Endpoint.isOSeriesModel (m +:+ suf) = true.
Proof.
  intros H. split.
  - unfold Provider.isOSeriesModel in *. now apply some_startsWith_suffix.
  - unfold Provider.isOSeriesModel, Endpoint.isOSeriesModel in *.
    now apply some_startsWith_suffix.
Qed.

Lemma isOSeriesModel_suffix_witness :
  Provider.isOSeriesModel ("O3-mini" +:+ "-2025-01-31") = true /\
  Endpoint.isOSeriesModel ("O3-mini" +:+ "-2025-01-31") = true.
Proof.
  apply (isOSeriesModel_suffix "O3-mini" "-2025-01-31"). reflexivity.
Defined.



Lemma substring_tests_extend_witness :
  AzureUtils.shouldUseResponsesAPI ("prod-" +:+ "GPT-4.1" +:+ "-2025-04-14") = true
  /\ Provider.supportsVision ("prod-" +:+ "GPT-4.1" +:+ "-2025-04-14") = true.
Proof.
  destruct (substring_tests_extend "GPT-4.1" "prod-" "-2025-04-14") as [H1 H2].
  split; [apply H1 | apply H2]; reflexivity.
Defined.

(* ===================================================================== *)
(** ** Further properties of the Capability Deriver *)
(* ===================================================================== *)

Module MoreDeriveFacts.

Lemma hasOmniMarker_vision m :
  hasOmniMarker m = true -> Provider.supportsVision m = true.
Proof.
  unfold hasOmniMarker, Provider.supportsVision. intros H.
  apply orb_true_iff in H. apply some_true_iff.
  destruct H as [H | H]; [exists "gpt-4o" | exists "gpt-4.1"];
    (split; [simpl; tauto | exact H]).
Qed.

Lemma enhance_omni m baseInfo :
  Provider.isOSeriesModel m = false -> hasOmniMarker m = true ->
  Provider.enhance m baseInfo =
    Provider.withSupports baseInfo
      (<["vision" := true]>
         (<["tool_calls" := true]> (supports (capabilities baseInfo)))).
Proof.
  unfold Provider.enhance, hasOmniMarker. intros -> ->. reflexivity.
Qed.

Lemma enhance_plain m baseInfo :
  Provider.isOSeriesModel m = false -> hasOmniMarker m = false ->
  Provider.enhance m baseInfo = baseInfo.
Proof.
  unfold Provider.enhance, hasOmniMarker. intros -> ->. reflexivity.
Qed.

End MoreDeriveFacts.

Import MoreDeriveFacts.

(** X8.  For a model id that fails the o-series prefix test,
    [getModelInfo] never touches the limits.  If the lower-cased id contains
    [gpt-4o] or [gpt-4.1] it sets [tool_calls] and [vision] to [true] and
    keeps every other [supports] flag of the baseline; otherwise it returns
    the baseline itself. *)
Theorem getModelInfo_other_models {Caps : Type}
    (super_getModelInfo : string -> string -> option Caps -> IChatModelInformation)
    (modelId apiKey : string) (modelCapabilities : option Caps) :
  Provider.isOSeriesModel modelId = false ->
  let baseline := super_getModelInfo modelId apiKey modelCapabilities in
  let info := Provider.getModelInfo super_getModelInfo modelId apiKey
                modelCapabilities in
  limits (capabilities info) = limits (capabilities baseline) /\
  if includes (toLowerCase modelId) "gpt-4o"
     || includes (toLowerCase modelId) "gpt-4.1"
  then
    supports (capabilities info) !! "tool_calls" = Some true /\
    supports (capabilities info) !! "vision" = Some true /\
    (forall flag, flag <> "tool_calls" -> flag <> "vision" ->
       supports (capabilities info) !! flag
       = supports (capabilities baseline) !! flag)
  else info = baseline.
Proof.
  intros Ho. cbv zeta. unfold Provider.getModelInfo.
  split; [now apply enhance_other_limits |].
  fold (hasOmniMarker modelId).
  destruct (hasOmniMarker modelId) eqn:Hm.
  - rewrite (enhance_omni _ _ Ho Hm). cbn [Provider.withSupports capabilities supports].
    split; [| split].
    + rewrite lookup_insert_ne by discriminate. apply lookup_insert_eq.
    + apply lookup_insert_eq.
    + intros flag Ht Hv. now rewrite !lookup_insert_ne by congruence.
  - now apply enhance_plain.
Qed.

Lemma getModelInfo_other_models_witness :
  let super := fun m (_ : string) (_ : option unit) =>
                 sample_baseline m (mkLimits 128000 128000 16384) in
  let baseline := super "GPT-4o-mini" "key" None in
  let info := Provider.getModelInfo super "GPT-4o-mini" "key" None in
  limits (capabilities info) = limits (capabilities baseline) /\
  if includes (toLowerCase "GPT-4o-mini") "gpt-4o"
     || includes (toLowerCase "GPT-4o-mini") "gpt-4.1"
  then
    supports (capabilities info) !! "tool_calls" = Some true /\
    supports (capabilities info) !! "vision" = Some true /\
    (forall flag, flag <> "tool_calls" -> flag <> "vision" ->
       supports (capabilities info) !! flag
       = supports (capabilities baseline) !! flag)
  else info = baseline.
Proof.
  apply (getModelInfo_other_models
           (fun m (_ : string) (_ : option unit) =>
              sample_baseline m (mkLimits 128000 128000 16384))
           "GPT-4o-mini" "key" None).
  reflexivity.
Defined.

(** X9.  In every branch [getModelInfo] keeps the model id, the top-level
    [maxInputTokens], the remaining top-level properties and the remaining
    capability properties of the baseline.  And whenever it returns
    something other than the baseline, the record has [tool_calls] set and
    its [vision] flag is exactly [supportsVision modelId]: the literal
    [true] of the gpt-4o / gpt-4.1 branch agrees with the vision list. *)
Theorem getModelInfo_frame {Caps : Type}
    (super_getModelInfo : string -> string -> option Caps -> IChatModelInformation)
    (modelId apiKey : string) (modelCapabilities : option Caps) :
  let baseline := super_getModelInfo modelId apiKey modelCapabilities in
  let info := Provider.getModelInfo super_getModelInfo modelId apiKey
                modelCapabilities in
  (id info = id baseline /\
   maxInputTokens info = maxInputTokens baseline /\
   info_rest info = info_rest baseline /\
   capabilities_rest (capabilities info)
   = capabilities_rest (capabilities baseline)) /\
  (info = baseline \/
   supports (capabilities info) !! "tool_calls" = Some true /\
   supports (capabilities info) !! "vision"
   = Some (Provider.supportsVision modelId)).
Proof.
  cbv zeta. unfold Provider.getModelInfo.
  set (baseline := super_getModelInfo modelId apiKey modelCapabilities).
  destruct (Provider.isOSeriesModel modelId) eqn:Ho.
  - rewrite (enhance_oseries _ _ Ho). split; [repeat split; reflexivity |].
    right. cbn [Provider.withLimits Provider.withSupports capabilities supports].
    split; [| apply lookup_insert_eq].
    rewrite lookup_insert_ne by discriminate. apply lookup_insert_eq.
  - destruct (hasOmniMarker modelId) eqn:Hm.
    + rewrite (enhance_omni _ _ Ho Hm). split; [repeat split; reflexivity |].
      right. cbn [Provider.withSupports capabilities supports].
      rewrite (hasOmniMarker_vision _ Hm).
      split; [| apply lookup_insert_eq].
      rewrite lookup_insert_ne by discriminate. apply lookup_insert_eq.
    + rewrite (enhance_plain _ _ Ho Hm). split; [repeat split; reflexivity |].
      now left.
Qed.

(* ===================================================================== *)
(** ** Further properties of the Endpoint Adapter *)
(* ===================================================================== *)

Module MoreSanitizeFacts.

Lemma top_p_kept_iff v :
  top_p_rejected v = false <->
  v = JUndefined \/ strict_equals v (JNumber 1) = true.
Proof.
  unfold top_p_rejected. rewrite andb_false_iff, !negb_false_iff.
  now rewrite strict_equals_undefined.
Qed.

Lemma strip_subset (body : gmap string jsvalue) k v :
  Endpoint.stripOSeriesParameters body !! k = Some v -> body !! k = Some v.
Proof.
  destruct (decide (k = "temperature")) as [-> | Ht].
  { now rewrite strip_temperature. }
  destruct (decide (k = "top_p")) as [-> | Hp].
  - rewrite strip_top_p. destruct (body !! "top_p") as [w |]; [| discriminate].
    now destruct (top_p_rejected w).
  - now rewrite strip_other.
Qed.

Lemma strip_nothing (body : gmap string jsvalue) :
  body !! "temperature" = None ->
  (forall v, body !! "top_p" = Some v -> top_p_rejected v = false) ->
  Endpoint.stripOSeriesParameters body = body.
Proof.
  intros Ht Hp. apply map_eq. intros k.
  destruct (decide (k = "temperature")) as [-> | Hkt].
  { now rewrite strip_temperature. }
  destruct (decide (k = "top_p")) as [-> | Hkp].
  - rewrite strip_top_p. destruct (body !! "top_p") as [w |] eqn:E; [| reflexivity].
    now rewrite (Hp w).
  - now apply strip_other.
Qed.

Lemma strip_idempotent (body : gmap string jsvalue) :
  Endpoint.stripOSeriesParameters (Endpoint.stripOSeriesParameters body)
  = Endpoint.stripOSeriesParameters body.
Proof.
  apply strip_nothing; [apply strip_temperature |].
  intros v. rewrite strip_top_p.
  destruct (body !! "top_p") as [w |]; [| discriminate].
  destruct (top_p_rejected w) eqn:E; [discriminate |]. congruence.
Qed.

End MoreSanitizeFacts.

Import MoreSanitizeFacts.

(** X10.  [interceptBody] only ever removes: every property of the body it
    leaves was a property, with the same value, of the body the base
    interception left.  If that body has no [temperature], and its [top_p],
    if any, is [undefined] or 1, the body is left exactly as the base
    interception left it.  And once [interceptBody] has run, its own
    o-series part finds nothing more to remove. *)
Theorem interceptBody_only_removes
    (super_interceptBody :
       Endpoint.AzureOpenAIEndpoint -> gmap string jsvalue -> gmap string jsvalue)
    (this : Endpoint.AzureOpenAIEndpoint) (body body' : gmap string jsvalue) :
  Endpoint.interceptBody super_interceptBody this (Some body) = Some body' ->
  (forall k v, body' !! k = Some v ->
               super_interceptBody this body !! k = Some v) /\
  (super_interceptBody this body !! "temperature" = None ->
   (forall v, super_interceptBody this body !! "top_p" = Some v ->
              v = JUndefined \/ strict_equals v (JNumber 1) = true) ->
   body' = super_interceptBody this body) /\
  Endpoint.interceptBody (fun _ b => b) this (Some body') = Some body'.
Proof.
  unfold Endpoint.interceptBody.
  destruct (Endpoint.isOSeriesModel (Endpoint.model this)); intros H;
    injection H as <-.
  - split; [| split].
    + intros k v. apply strip_subset.
    + intros Ht Hp. apply strip_nothing; [exact Ht |].
      intros v Hv. apply top_p_kept_iff. now apply Hp.
    + now rewrite strip_idempotent.
  - split; [| split]; auto.
Qed.

Lemma interceptBody_only_removes_witness :
  (forall k v,
     ({["model" := JString "o3-mini"]} : gmap string jsvalue) !! k = Some v ->
     (<["temperature" := JNumber (1 # 10)]>
        (<["top_p" := JNumber (1 # 10)]> {["model" := JString "o3-mini"]})
        : gmap string jsvalue) !! k = Some v) /\
  ((<["temperature" := JNumber (1 # 10)]>
      (<["top_p" := JNumber (1 # 10)]> {["model" := JString "o3-mini"]})
      : gmap string jsvalue) !! "temperature" = None ->
   (forall v,
      (<["temperature" := JNumber (1 # 10)]>
         (<["top_p" := JNumber (1 # 10)]> {["model" := JString "o3-mini"]})
         : gmap string jsvalue) !! "top_p" = Some v ->
      v = JUndefined \/ strict_equals v (JNumber 1) = true) ->
   ({["model" := JString "o3-mini"]} : gmap string jsvalue)
   = <["temperature" := JNumber (1 # 10)]>
       (<["top_p" := JNumber (1 # 10)]> {["model" := JString "o3-mini"]})) /\
  Endpoint.interceptBody (fun _ b => b) (sample_endpoint "o3-mini")
    (Some {["model" := JString "o3-mini"]})
  = Some {["model" := JString "o3-mini"]}.
Proof.
  apply (interceptBody_only_removes (fun _ b => b) (sample_endpoint "o3-mini")
           (<["temperature" := JNumber (1 # 10)]>
              (<["top_p" := JNumber (1 # 10)]> {["model" := JString "o3-mini"]}))
           {["model" := JString "o3-mini"]}).
  vm_compute. reflexivity.
Defined.

(** X11.  [makeChatRequest] is transparent unless the base transport
    throws an object whose message contains [auth]: if no such object is
    thrown, the outcome and the transport state are exactly those of the
    base call, responses included.  The second test of the source, for
    [authentication], never decides anything. *)
Theorem makeChatRequest_transparent {Request Response Transport : Type}
    (super_makeChatRequest :
       Request -> Transport -> completion Response * Transport)
    (request : Request) (t : Transport) :
  (forall m extra,
     fst (super_makeChatRequest request t) = Throw (ThrownObject (Some m) extra) ->
     includes m "auth" = false) ->
  Endpoint.makeChatRequest super_makeChatRequest request t
  = super_makeChatRequest request t.
Proof.
  unfold Endpoint.makeChatRequest. intros H.
  destruct (super_makeChatRequest request t) as [outcome t'].
  destruct outcome as [response | [[m |] extra | v]]; try reflexivity.
  pose proof (H m extra eq_refl) as Hm. rewrite Hm. cbn [orb].
  destruct (includes m "authentication") eqn:E; [| reflexivity].
  apply (includes_pattern_prefix m "auth" "entication") in E. congruence.
Qed.

Lemma makeChatRequest_transparent_witness :
  Endpoint.makeChatRequest
    (rejectingTransport (ThrownObject (Some "429 Too Many Requests") []))
    tt 0%nat
  = rejectingTransport (ThrownObject (Some "429 Too Many Requests") []) tt 0%nat.
Proof.
  apply (makeChatRequest_transparent
           (rejectingTransport (ThrownObject (Some "429 Too Many Requests") []))
           tt 0%nat).
  intros m extra H. vm_compute in H. injection H as <- _. reflexivity.
Defined.

(** X12.  Overrides do not accumulate and do not leak: cloning an endpoint
    with budget [n1] and then cloning the clone with budget [n2] leaves three
    distinct endpoints in the store, the receiver unchanged, the first clone
    with [maxInputTokens] [n1], the second with [n2], and all three with the
    same model id, capabilities, API key and URL. *)
Theorem cloneWithTokenOverride_twice (this : Endpoint.AzureOpenAIEndpoint)
    (n1 n2 : Z) (h : gmap nat Endpoint.AzureOpenAIEndpoint) (ref : nat) :
  h !! ref = Some this ->
  exists r1 h1 c1 r2 h2 c2,
    Endpoint.cloneWithTokenOverride this n1 h = (r1, h1) /\
    h1 !! r1 = Some c1 /\
    Endpoint.cloneWithTokenOverride c1 n2 h1 = (r2, h2) /\
    r1 <> ref /\ r2 <> ref /\ r2 <> r1 /\
    h2 !! ref = Some this /\
    h2 !! r1 = Some c1 /\
    h2 !! r2 = Some c2 /\
    maxInputTokens (Endpoint._azureModelInfo c1) = Some n1 /\
    maxInputTokens (Endpoint._azureModelInfo c2) = Some n2 /\
    Endpoint.withMaxInputTokens (Endpoint._azureModelInfo c2) n1
    = Endpoint._azureModelInfo c1 /\
    Endpoint.model c2 = Endpoint.model this /\
    capabilities (Endpoint._azureModelInfo c2)
    = capabilities (Endpoint._azureModelInfo this) /\
    Endpoint._azureApiKey c2 = Endpoint._azureApiKey this /\
    Endpoint._azureModelUrl c2 = Endpoint._azureModelUrl this.
Proof.
  intros Href.
  unfold Endpoint.cloneWithTokenOverride, Endpoint.createInstance.
  set (c1 := Endpoint.mkEndpoint
               (Endpoint.withMaxInputTokens (Endpoint._azureModelInfo this) n1)
               (Endpoint._azureApiKey this) (Endpoint._azureModelUrl this)).
  set (r1 := fresh (dom h)).
  set (h1 := <[r1 := c1]> h).
  set (r2 := fresh (dom h1)).
  assert (Hr1 : h !! r1 = None) by (apply not_elem_of_dom, is_fresh).
  assert (Hr2 : h1 !! r2 = None) by (apply not_elem_of_dom, is_fresh).
  assert (H1 : r1 <> ref) by (intros ->; congruence).
  assert (H21 : r2 <> r1).
  { intros E. rewrite E in Hr2. subst h1. rewrite lookup_insert_eq in Hr2.
    discriminate. }
  assert (H2 : r2 <> ref).
  { intros E. rewrite E in Hr2. subst h1.
    rewrite lookup_insert_ne in Hr2 by exact H1. congruence. }
  set (c2 := Endpoint.mkEndpoint
               (Endpoint.withMaxInputTokens (Endpoint._azureModelInfo c1) n2)
               (Endpoint._azureApiKey c1) (Endpoint._azureModelUrl c1)).
  exists r1, h1, c1, r2, (<[r2 := c2]> h1), c2.
  split; [reflexivity |].
  split; [subst h1; apply lookup_insert_eq |].
  split; [reflexivity |].
  split; [exact H1 |]. split; [exact H2 |]. split; [exact H21 |].
  split.
  { rewrite lookup_insert_ne by exact H2. subst h1.
    rewrite lookup_insert_ne by exact H1. exact Href. }
  split.
  { rewrite lookup_insert_ne by exact H21. subst h1. apply lookup_insert_eq. }
  split; [apply lookup_insert_eq |].
  repeat split; reflexivity.
Qed.

Lemma cloneWithTokenOverride_twice_witness :
  exists r1 h1 c1 r2 h2 c2,
    Endpoint.cloneWithTokenOverride (sample_endpoint "o3-mini") 64000
      {[ 0%nat := sample_endpoint "o3-mini" ]} = (r1, h1) /\
    h1 !! r1 = Some c1 /\
    Endpoint.cloneWithTokenOverride c1 32000 h1 = (r2, h2) /\
    r1 <> 0%nat /\ r2 <> 0%nat /\ r2 <> r1 /\
    h2 !! 0%nat = Some (sample_endpoint "o3-mini") /\
    h2 !! r1 = Some c1 /\
    h2 !! r2 = Some c2 /\
    maxInputTokens (Endpoint._azureModelInfo c1) = Some 64000%Z /\
    maxInputTokens (Endpoint._azureModelInfo c2) = Some 32000%Z /\
    Endpoint.withMaxInputTokens (Endpoint._azureModelInfo c2) 64000
    = Endpoint._azureModelInfo c1 /\
    Endpoint.model c2 = Endpoint.model (sample_endpoint "o3-mini") /\
    capabilities (Endpoint._azureModelInfo c2)
    = capabilities (Endpoint._azureModelInfo (sample_endpoint "o3-mini")) /\
    Endpoint._azureApiKey c2 = Endpoint._azureApiKey (sample_endpoint "o3-mini") /\
    Endpoint._azureModelUrl c2
    = Endpoint._azureModelUrl (sample_endpoint "o3-mini").
Proof.
  apply (cloneWithTokenOverride_twice (sample_endpoint "o3-mini") 64000 32000
           {[ 0%nat := sample_endpoint "o3-mini" ]} 0%nat).
  reflexivity.
Defined.

(* ===================================================================== *)
(** ** Further properties of the Registration Workflow *)
(* ===================================================================== *)

Module RegisterFacts.

(** [registerModel] on a descriptor that has both a key and a URL. *)
Lemma registerModel_per_model {Caps : Type}
    (super_getModelInfo : string -> string -> option Caps -> IChatModelInformation)
    (m key url : string) (caps : option Caps)
    (h : gmap nat Endpoint.AzureOpenAIEndpoint) :
  Provider.registerModel super_getModelInfo
    (Provider.mkConfig m (Some key) (Some url) caps) h
  = match resolveAzureUrl m url (Some (AzureUtils.shouldUseResponsesAPI m)) with
    | Throw e => (Throw e, h)
    | Return modelUrl =>
        (Return (Provider.mkRegistration ("Azure-" +:+ m) (fresh (dom h))),
         <[fresh (dom h) :=
             Endpoint.mkEndpoint
               (Provider.getModelInfo super_getModelInfo m key caps) key modelUrl]> h)
    end.
Proof.
  unfold Provider.registerModel, Provider.isPerModelConfig,
    Provider.supportsResponsesAPI.
  cbn [Provider.apiKey Provider.deploymentUrl Provider.modelId
       Provider.config_capabilities].
  destruct (resolveAzureUrl m url (Some (AzureUtils.shouldUseResponsesAPI m)));
    reflexivity.
Qed.

Lemma resolveAzureUrl_result_guarded m u f r :
  resolveAzureUrl m u f = Return r -> hasRequestPath r = true.
Proof.
  intros Hr. destruct (hasRequestPath u) eqn:Hpath.
  - rewrite (resolveAzureUrl_guarded _ _ _ Hpath) in Hr. now injection Hr as <-.
  - pose proof Hr as Hr'.
    rewrite (resolveAzureUrl_unguarded _ _ _ Hpath) in Hr'. cbv zeta in Hr'.
    unfold hasRequestPath. apply orb_true_iff.
    destruct (hasRawInferenceMarker (trimUrl u));
      [| destruct (hasGatewayMarker (trimUrl u)); [| discriminate]];
      destruct (truthy f); injection Hr' as <-.
    + right. pose proof (includes_app (trimUrl u +:+ "/v1") "/responses" "") as H.
      now rewrite app_assoc in H.
    + left.
      pose proof (includes_app (trimUrl u +:+ "/v1") "/chat/completions" "") as H.
      now rewrite app_assoc in H.
    + right.
      pose proof (includes_app (trimUrl u +:+ "/openai/v1") "/responses"
                    "?api-version=2025-04-01-preview") as H.
      now rewrite app_assoc in H.
    + left.
      pose proof (includes_app ((trimUrl u +:+ "/openai/deployments/") +:+ m)
                    "/chat/completions" "?api-version=2025-04-01-preview") as H.
      now rewrite !app_assoc in H.
Qed.

End RegisterFacts.

Import RegisterFacts.


(** X14.  When [registerModel] succeeds on a descriptor with key and URL,
    it has created exactly one endpoint, at a reference that was free, and
    changed nothing else in the store; the provider name is [Azure-]
    followed by the model id; the endpoint carries the descriptor's key, the
    model information of [getModelInfo], and the URL [resolveAzureUrl] gives
    for the surface [shouldUseResponsesAPI] selects.  That URL is final:
    resolving it again, for any model id and flag, returns it unchanged. *)
Theorem registerModel_success {Caps : Type}
    (super_getModelInfo : string -> string -> option Caps -> IChatModelInformation)
    (m key url : string) (caps : option Caps)
    (h h' : gmap nat Endpoint.AzureOpenAIEndpoint)
    (registration : Provider.Registration) :
  Provider.registerModel super_getModelInfo
    (Provider.mkConfig m (Some key) (Some url) caps) h
  = (Return registration, h') ->
  Provider.providerName registration = "Azure-" +:+ m /\
  h !! Provider.endpoint registration = None /\
  (forall r, r <> Provider.endpoint registration -> h' !! r = h !! r) /\
  exists e,
    h' !! Provider.endpoint registration = Some e /\
    Endpoint._azureApiKey e = key /\
    Endpoint._azureModelInfo e
    = Provider.getModelInfo super_getModelInfo m key caps /\
    resolveAzureUrl m url (Some (AzureUtils.shouldUseResponsesAPI m))
    = Return (Endpoint._azureModelUrl e) /\
    (forall m' f',
       resolveAzureUrl m' (Endpoint._azureModelUrl e) f'
       = Return (Endpoint._azureModelUrl e)).
Proof.
  rewrite registerModel_per_model.
  destruct (resolveAzureUrl m url (Some (AzureUtils.shouldUseResponsesAPI m)))
    as [modelUrl | e] eqn:Hurl; [| discriminate].
  intros H. injection H as <- <-. cbn [Provider.providerName Provider.endpoint].
  split; [reflexivity |].
  split; [apply not_elem_of_dom, is_fresh |].
  split; [intros r Hr; apply lookup_insert_ne; congruence |].
  eexists. split; [apply lookup_insert_eq |].
  cbn [Endpoint._azureApiKey Endpoint._azureModelInfo Endpoint._azureModelUrl].
  repeat split.
  intros m' f'. apply resolveAzureUrl_guarded.
  exact (resolveAzureUrl_result_guarded _ _ _ _ Hurl).
Qed.

Lemma registerModel_success_witness :
  Provider.providerName (Provider.mkRegistration "Azure-o3-mini" 0)
  = "Azure-" +:+ "o3-mini" /\
  (∅ : gmap nat Endpoint.AzureOpenAIEndpoint)
    !! Provider.endpoint (Provider.mkRegistration "Azure-o3-mini" 0) = None /\
  (forall r, r <> Provider.endpoint (Provider.mkRegistration "Azure-o3-mini" 0) ->
     (snd (Provider.registerModel
             (fun m (_ : string) (_ : option unit) =>
                sample_baseline m (mkLimits 100000 100000 8192))
             (Provider.mkConfig "o3-mini" (Some "key")
                (Some "https://test.openai.azure.com/") None) ∅)) !! r
     = (∅ : gmap nat Endpoint.AzureOpenAIEndpoint) !! r) /\
  exists e,
    (snd (Provider.registerModel
            (fun m (_ : string) (_ : option unit) =>
               sample_baseline m (mkLimits 100000 100000 8192))
            (Provider.mkConfig "o3-mini" (Some "key")
               (Some "https://test.openai.azure.com/") None) ∅))
      !! Provider.endpoint (Provider.mkRegistration "Azure-o3-mini" 0) = Some e /\
    Endpoint._azureApiKey e = "key" /\
    Endpoint._azureModelInfo e
    = Provider.getModelInfo
        (fun m (_ : string) (_ : option unit) =>
           sample_baseline m (mkLimits 100000 100000 8192))
        "o3-mini" "key" None /\
    resolveAzureUrl "o3-mini" "https://test.openai.azure.com/"
      (Some (AzureUtils.shouldUseResponsesAPI "o3-mini"))
    = Return (Endpoint._azureModelUrl e) /\
    (forall m' f',
       resolveAzureUrl m' (Endpoint._azureModelUrl e) f'
       = Return (Endpoint._azureModelUrl e)).
Proof.
  apply (registerModel_success
           (fun m (_ : string) (_ : option unit) =>
              sample_baseline m (mkLimits 100000 100000 8192))
           "o3-mini" "key" "https://test.openai.azure.com/" None ∅).
  vm_compute. reflexivity.
Defined.


